(** * Access-control modules of PulseAudio: module-access and module-flatpak

    A shallow embedding of [src/modules/module-access.c] and
    [src/modules/module-flatpak.c] together with the properties of the
    decision engine, the subscription-event filter and the portal arbiter.

    Conventions of the embedding.
    - [uint32_t] indexes, the event word and pids are [Z]; access hook ids
      (the enum [pa_access_hook_t], used to index arrays) are [nat].
    - C arrays are lists read with [!!] and written with [<[i:=x]>].
    - [pa_hashmap] and [pa_idxset] are [gmap]s keyed by the index.
    - A function that mutates [struct userdata] returns the new value.
    - A call returns [None] when the C code has no defined result there: a
      NULL or dangling pointer is dereferenced, an array is read out of
      bounds, [pa_assert_not_reached] fires, or a hook re-enters itself
      without bound. *)

From stdpp Require Import base option list gmap strings.
From Stdlib Require Import ZArith Lia Ascii.


(** ** Constants of the host headers

    [pulse/def.h] and [pulsecore/core.h] are not part of the sources at
    hand: the numeric values of the enumerators the two modules name are
    taken as parameters. *)

Class pulse_abi := PulseAbi {
  PA_INVALID_INDEX : Z;
  (* pa_subscription_event_type_t *)
  PA_SUBSCRIPTION_EVENT_SINK : Z;
  PA_SUBSCRIPTION_EVENT_SOURCE : Z;
  PA_SUBSCRIPTION_EVENT_SINK_INPUT : Z;
  PA_SUBSCRIPTION_EVENT_SOURCE_OUTPUT : Z;
  PA_SUBSCRIPTION_EVENT_MODULE : Z;
  PA_SUBSCRIPTION_EVENT_CLIENT : Z;
  PA_SUBSCRIPTION_EVENT_SAMPLE_CACHE : Z;
  PA_SUBSCRIPTION_EVENT_SERVER : Z;
  PA_SUBSCRIPTION_EVENT_CARD : Z;
  PA_SUBSCRIPTION_EVENT_FACILITY_MASK : Z;
  PA_SUBSCRIPTION_EVENT_NEW : Z;
  PA_SUBSCRIPTION_EVENT_CHANGE : Z;
  PA_SUBSCRIPTION_EVENT_REMOVE : Z;
  PA_SUBSCRIPTION_EVENT_TYPE_MASK : Z;
  (* pa_access_hook_t *)
  PA_ACCESS_HOOK_GET_SINK_INFO : nat;
  PA_ACCESS_HOOK_GET_SOURCE_INFO : nat;
  PA_ACCESS_HOOK_GET_SERVER_INFO : nat;
  PA_ACCESS_HOOK_GET_MODULE_INFO : nat;
  PA_ACCESS_HOOK_GET_CARD_INFO : nat;
  PA_ACCESS_HOOK_STAT : nat;
  PA_ACCESS_HOOK_GET_SAMPLE_INFO : nat;
  PA_ACCESS_HOOK_PLAY_SAMPLE : nat;
  PA_ACCESS_HOOK_CONNECT_PLAYBACK : nat;
  PA_ACCESS_HOOK_CONNECT_RECORD : nat;
  PA_ACCESS_HOOK_GET_CLIENT_INFO : nat;
  PA_ACCESS_HOOK_KILL_CLIENT : nat;
  PA_ACCESS_HOOK_GET_SINK_INPUT_INFO : nat;
  PA_ACCESS_HOOK_MOVE_SINK_INPUT : nat;
  PA_ACCESS_HOOK_SET_SINK_INPUT_VOLUME : nat;
  PA_ACCESS_HOOK_SET_SINK_INPUT_MUTE : nat;
  PA_ACCESS_HOOK_KILL_SINK_INPUT : nat;
  PA_ACCESS_HOOK_GET_SOURCE_OUTPUT_INFO : nat;
  PA_ACCESS_HOOK_MOVE_SOURCE_OUTPUT : nat;
  PA_ACCESS_HOOK_SET_SOURCE_OUTPUT_VOLUME : nat;
  PA_ACCESS_HOOK_SET_SOURCE_OUTPUT_MUTE : nat;
  PA_ACCESS_HOOK_KILL_SOURCE_OUTPUT : nat;
  PA_ACCESS_HOOK_FILTER_SUBSCRIBE_EVENT : nat;
  PA_ACCESS_HOOK_MAX : nat
}.

(** The hooks, facilities and event types named by the modules. *)
Definition named_hooks `{pulse_abi} : list nat :=
  [ PA_ACCESS_HOOK_GET_SINK_INFO; PA_ACCESS_HOOK_GET_SOURCE_INFO;
    PA_ACCESS_HOOK_GET_SERVER_INFO; PA_ACCESS_HOOK_GET_MODULE_INFO;
    PA_ACCESS_HOOK_GET_CARD_INFO; PA_ACCESS_HOOK_STAT;
    PA_ACCESS_HOOK_GET_SAMPLE_INFO; PA_ACCESS_HOOK_PLAY_SAMPLE;
    PA_ACCESS_HOOK_CONNECT_PLAYBACK; PA_ACCESS_HOOK_CONNECT_RECORD;
    PA_ACCESS_HOOK_GET_CLIENT_INFO; PA_ACCESS_HOOK_KILL_CLIENT;
    PA_ACCESS_HOOK_GET_SINK_INPUT_INFO; PA_ACCESS_HOOK_MOVE_SINK_INPUT;
    PA_ACCESS_HOOK_SET_SINK_INPUT_VOLUME; PA_ACCESS_HOOK_SET_SINK_INPUT_MUTE;
    PA_ACCESS_HOOK_KILL_SINK_INPUT; PA_ACCESS_HOOK_GET_SOURCE_OUTPUT_INFO;
    PA_ACCESS_HOOK_MOVE_SOURCE_OUTPUT; PA_ACCESS_HOOK_SET_SOURCE_OUTPUT_VOLUME;
    PA_ACCESS_HOOK_SET_SOURCE_OUTPUT_MUTE; PA_ACCESS_HOOK_KILL_SOURCE_OUTPUT;
    PA_ACCESS_HOOK_FILTER_SUBSCRIBE_EVENT ].

Definition named_facilities `{pulse_abi} : list Z :=
  [ PA_SUBSCRIPTION_EVENT_SINK; PA_SUBSCRIPTION_EVENT_SOURCE;
    PA_SUBSCRIPTION_EVENT_SINK_INPUT; PA_SUBSCRIPTION_EVENT_SOURCE_OUTPUT;
    PA_SUBSCRIPTION_EVENT_MODULE; PA_SUBSCRIPTION_EVENT_CLIENT;
    PA_SUBSCRIPTION_EVENT_SAMPLE_CACHE; PA_SUBSCRIPTION_EVENT_SERVER;
    PA_SUBSCRIPTION_EVENT_CARD ].

Definition named_event_types `{pulse_abi} : list Z :=
  [ PA_SUBSCRIPTION_EVENT_REMOVE; PA_SUBSCRIPTION_EVENT_CHANGE;
    PA_SUBSCRIPTION_EVENT_NEW ].

(** What the C compiler guarantees of the enumerations: enumerators are
    pairwise distinct (they are [case] labels and array designators), every
    hook is below [PA_ACCESS_HOOK_MAX], the array bound, and every facility
    fits the [event_hook] table of [PA_SUBSCRIPTION_EVENT_FACILITY_MASK+1]
    entries. *)
Record pulse_abi_ok (K : pulse_abi) : Prop := PulseAbiOk {
  hooks_distinct : NoDup named_hooks;
  hooks_below_max : Forall (λ h, h < PA_ACCESS_HOOK_MAX) named_hooks;
  facilities_distinct : NoDup named_facilities;
  facilities_in_mask :
    Forall (λ f, (0 ≤ f ≤ PA_SUBSCRIPTION_EVENT_FACILITY_MASK)%Z) named_facilities;
  event_types_distinct : NoDup named_event_types
}.

(** A concrete numbering. The subscription constants and
    [PA_INVALID_INDEX] are those of libpulse's public [pulse/def.h]; the
    hooks are numbered from 1 in the order [pa__init] first mentions them,
    0 being left to a hook neither module names. *)
Definition abi0 : pulse_abi := {|
  PA_INVALID_INDEX := 4294967295;
  PA_SUBSCRIPTION_EVENT_SINK := 0;
  PA_SUBSCRIPTION_EVENT_SOURCE := 1;
  PA_SUBSCRIPTION_EVENT_SINK_INPUT := 2;
  PA_SUBSCRIPTION_EVENT_SOURCE_OUTPUT := 3;
  PA_SUBSCRIPTION_EVENT_MODULE := 4;
  PA_SUBSCRIPTION_EVENT_CLIENT := 5;
  PA_SUBSCRIPTION_EVENT_SAMPLE_CACHE := 6;
  PA_SUBSCRIPTION_EVENT_SERVER := 7;
  PA_SUBSCRIPTION_EVENT_CARD := 9;
  PA_SUBSCRIPTION_EVENT_FACILITY_MASK := 15;
  PA_SUBSCRIPTION_EVENT_NEW := 0;
  PA_SUBSCRIPTION_EVENT_CHANGE := 16;
  PA_SUBSCRIPTION_EVENT_REMOVE := 32;
  PA_SUBSCRIPTION_EVENT_TYPE_MASK := 48;
  PA_ACCESS_HOOK_GET_SINK_INFO := 1;
  PA_ACCESS_HOOK_GET_SOURCE_INFO := 2;
  PA_ACCESS_HOOK_GET_SERVER_INFO := 3;
  PA_ACCESS_HOOK_GET_MODULE_INFO := 4;
  PA_ACCESS_HOOK_GET_CARD_INFO := 5;
  PA_ACCESS_HOOK_STAT := 6;
  PA_ACCESS_HOOK_GET_SAMPLE_INFO := 7;
  PA_ACCESS_HOOK_PLAY_SAMPLE := 8;
  PA_ACCESS_HOOK_CONNECT_PLAYBACK := 9;
  PA_ACCESS_HOOK_CONNECT_RECORD := 10;
  PA_ACCESS_HOOK_GET_CLIENT_INFO := 11;
  PA_ACCESS_HOOK_KILL_CLIENT := 12;
  PA_ACCESS_HOOK_GET_SINK_INPUT_INFO := 13;
  PA_ACCESS_HOOK_MOVE_SINK_INPUT := 14;
  PA_ACCESS_HOOK_SET_SINK_INPUT_VOLUME := 15;
  PA_ACCESS_HOOK_SET_SINK_INPUT_MUTE := 16;
  PA_ACCESS_HOOK_KILL_SINK_INPUT := 17;
  PA_ACCESS_HOOK_GET_SOURCE_OUTPUT_INFO := 18;
  PA_ACCESS_HOOK_MOVE_SOURCE_OUTPUT := 19;
  PA_ACCESS_HOOK_SET_SOURCE_OUTPUT_VOLUME := 20;
  PA_ACCESS_HOOK_SET_SOURCE_OUTPUT_MUTE := 21;
  PA_ACCESS_HOOK_KILL_SOURCE_OUTPUT := 22;
  PA_ACCESS_HOOK_FILTER_SUBSCRIBE_EVENT := 23;
  PA_ACCESS_HOOK_MAX := 24
|}.

(** ** Host data the modules read *)

Inductive pa_hook_result_t := PA_HOOK_OK | PA_HOOK_STOP | PA_HOOK_CANCEL.

#[global] Instance pa_hook_result_t_eq_dec : EqDecision pa_hook_result_t.
Proof. solve_decision. Defined.

(** [pa_access_data]: the request the host passes to an access hook.
    [async_finish_cb] names the host's continuation. *)
Record pa_access_data := AccessData {
  hook : nat;
  client_index : Z;
  object_index : Z;
  event : Z;
  async_finish_cb : nat
}.

#[global] Instance pa_access_data_eq_dec : EqDecision pa_access_data.
Proof. solve_decision. Defined.

(** [pa_access_data data = *d; data.hook = h;] *)
Definition with_hook (d : pa_access_data) (h : nat) : pa_access_data :=
  {| hook := h; client_index := client_index d; object_index := object_index d;
     event := event d; async_finish_cb := async_finish_cb d |}.

(** The fields of [pa_client] the modules read. *)
Record pa_client := Client {
  cl_index : Z;
  cl_creds_valid : bool;
  cl_creds_pid : Z;
  cl_proplist : string
}.

(** [pa_sink_input] and [pa_source_output]: only the [client]
    back-reference, which may be NULL. *)
Record pa_sink_input := SinkInput { si_client : option pa_client }.
Record pa_source_output := SourceOutput { so_client : option pa_client }.

(** [pa_core]: the two stream registries [rule_check_owner] consults. *)
Record pa_core := Core {
  sink_inputs : gmap Z pa_sink_input;
  source_outputs : gmap Z pa_source_output
}.

(** Modelled from the spec: [pa_idxset] ([pulsecore/idxset.c] is not among
    the sources), the "handle-allocating container" whose handles are "drawn
    from a monotonically allocated id space"; "removal is by handle". *)
Record pa_idxset (A : Type) := IdxSet {
  idx_entries : gmap Z A;
  idx_current : Z
}.
Arguments IdxSet {A} _ _.
Arguments idx_entries {A} _.
Arguments idx_current {A} _.

Definition pa_idxset_new {A} : pa_idxset A := IdxSet ∅ 0.

Definition pa_idxset_put {A} (s : pa_idxset A) (x : A) : Z * pa_idxset A :=
  (idx_current s,
   IdxSet (<[idx_current s := x]> (idx_entries s))
          ((idx_current s + 1) mod 2 ^ 32)%Z).

Definition pa_idxset_get_by_index {A} (s : pa_idxset A) (i : Z) : option A :=
  idx_entries s !! i.

Definition pa_idxset_remove_by_index {A} (s : pa_idxset A) (i : Z) : pa_idxset A :=
  IdxSet (delete i (idx_entries s)) (idx_current s).

(** ** The seen-object list (identical in both modules) *)

Record event_item := EventItem {
  ei_facility : Z;
  ei_object_index : Z
}.

#[global] Instance event_item_eq_dec : EqDecision event_item.
Proof. solve_decision. Defined.

Definition event_item_is (facility oidx : Z) (i : event_item) : bool :=
  (ei_facility i =? facility)%Z && (ei_object_index i =? oidx)%Z.

(** Modelled from the spec: the [PA_LLIST_*] macros ([pulsecore/llist.h] is
    not among the sources) keep the "ordered collection of
    (facility, object-index) pairs": [PA_LLIST_PREPEND] puts an item at the
    head, [PA_LLIST_FOREACH] walks from the head, [PA_LLIST_REMOVE] unlinks
    the one item it is given. *)
Definition llist_prepend (i : event_item) (l : list event_item) := i :: l.

(** [find_event]: the first item with that facility and object index. *)
Fixpoint find_event (events : list event_item) (facility oidx : Z)
  : option event_item :=
  match events with
  | [] => None
  | i :: rest =>
      if event_item_is facility oidx i then Some i
      else find_event rest facility oidx
  end.

(** [PA_LLIST_REMOVE] of the item [find_event] returned: the first match. *)
Fixpoint llist_remove_found (events : list event_item) (facility oidx : Z)
  : list event_item :=
  match events with
  | [] => []
  | i :: rest =>
      if event_item_is facility oidx i then rest
      else i :: llist_remove_found rest facility oidx
  end.

(** [add_event]: no look-up, the new item is prepended. *)
Definition add_event (events : list event_item) (facility oidx : Z)
  : list event_item :=
  llist_prepend (EventItem facility oidx) events.

(** [remove_event]: whether an item was found, and the list without it. *)
Definition remove_event (events : list event_item) (facility oidx : Z)
  : bool * list event_item :=
  match find_event events facility oidx with
  | Some _ => (true, llist_remove_found events facility oidx)
  | None => (false, events)
  end.

Section Rules.
Context `{K : pulse_abi}.

(** The three groups of [case] labels in [rule_check_owner]. *)
Definition client_hooks : list nat :=
  [ PA_ACCESS_HOOK_GET_CLIENT_INFO; PA_ACCESS_HOOK_KILL_CLIENT ].

Definition sink_input_hooks : list nat :=
  [ PA_ACCESS_HOOK_GET_SINK_INPUT_INFO; PA_ACCESS_HOOK_MOVE_SINK_INPUT;
    PA_ACCESS_HOOK_SET_SINK_INPUT_VOLUME; PA_ACCESS_HOOK_SET_SINK_INPUT_MUTE;
    PA_ACCESS_HOOK_KILL_SINK_INPUT ].

Definition source_output_hooks : list nat :=
  [ PA_ACCESS_HOOK_GET_SOURCE_OUTPUT_INFO; PA_ACCESS_HOOK_MOVE_SOURCE_OUTPUT;
    PA_ACCESS_HOOK_SET_SOURCE_OUTPUT_VOLUME; PA_ACCESS_HOOK_SET_SOURCE_OUTPUT_MUTE;
    PA_ACCESS_HOOK_KILL_SOURCE_OUTPUT ].

(** The owner index [idx] that the [switch] of [rule_check_owner] leaves:
    [PA_INVALID_INDEX] unless a [case] assigns it. *)
Definition owner_index (c : pa_core) (d : pa_access_data) : Z :=
  let idx := PA_INVALID_INDEX in
  if bool_decide (hook d ∈ client_hooks) then object_index d
  else if bool_decide (hook d ∈ sink_input_hooks) then
    match sink_inputs c !! object_index d with
    | Some si => match si_client si with
                 | Some cl => cl_index cl
                 | None => PA_INVALID_INDEX
                 end
    | None => PA_INVALID_INDEX
    end
  else if bool_decide (hook d ∈ source_output_hooks) then
    match source_outputs c !! object_index d with
    | Some so => match so_client so with
                 | Some cl => cl_index cl
                 | None => PA_INVALID_INDEX
                 end
    | None => PA_INVALID_INDEX
    end
  else idx.

(** [rule_check_owner] (the same text in both modules). *)
Definition rule_check_owner (c : pa_core) (d : pa_access_data)
  : pa_hook_result_t :=
  let idx := owner_index c d in
  if (idx =? client_index d)%Z then PA_HOOK_OK else PA_HOOK_STOP.

Definition rule_allow (c : pa_core) (d : pa_access_data) : pa_hook_result_t :=
  PA_HOOK_OK.

Definition rule_block (c : pa_core) (d : pa_access_data) : pa_hook_result_t :=
  PA_HOOK_STOP.

(** The designated initialisers of [event_hook], in order. *)
Definition event_hook_designators : list (Z * nat) :=
  [ (PA_SUBSCRIPTION_EVENT_SINK, PA_ACCESS_HOOK_GET_SINK_INFO);
    (PA_SUBSCRIPTION_EVENT_SOURCE, PA_ACCESS_HOOK_GET_SOURCE_INFO);
    (PA_SUBSCRIPTION_EVENT_SINK_INPUT, PA_ACCESS_HOOK_GET_SINK_INPUT_INFO);
    (PA_SUBSCRIPTION_EVENT_SOURCE_OUTPUT, PA_ACCESS_HOOK_GET_SOURCE_OUTPUT_INFO);
    (PA_SUBSCRIPTION_EVENT_MODULE, PA_ACCESS_HOOK_GET_MODULE_INFO);
    (PA_SUBSCRIPTION_EVENT_CLIENT, PA_ACCESS_HOOK_GET_CLIENT_INFO);
    (PA_SUBSCRIPTION_EVENT_SAMPLE_CACHE, PA_ACCESS_HOOK_GET_SAMPLE_INFO);
    (PA_SUBSCRIPTION_EVENT_SERVER, PA_ACCESS_HOOK_GET_SERVER_INFO);
    (PA_SUBSCRIPTION_EVENT_CARD, PA_ACCESS_HOOK_GET_CARD_INFO) ].

(** [event_hook]: a table of [PA_SUBSCRIPTION_EVENT_FACILITY_MASK+1]
    hooks, zero where no designator names the entry. *)
Definition event_hook : list nat :=
  foldl (λ table fh, <[Z.to_nat fh.1 := fh.2]> table)
        (replicate (Z.to_nat (PA_SUBSCRIPTION_EVENT_FACILITY_MASK + 1)) 0)
        event_hook_designators.

(** [d->event & PA_SUBSCRIPTION_EVENT_FACILITY_MASK] and
    [d->event & PA_SUBSCRIPTION_EVENT_TYPE_MASK]. *)
Definition event_facility (d : pa_access_data) : Z :=
  Z.land (event d) PA_SUBSCRIPTION_EVENT_FACILITY_MASK.

Definition event_type (d : pa_access_data) : Z :=
  Z.land (event d) PA_SUBSCRIPTION_EVENT_TYPE_MASK.
End Rules.

(** ** module-access.c: the plain broker *)

Module Access.

(** [access_rule_t]: the rule functions a policy slot can point to. *)
Inductive access_rule_t := Rule_check_owner | Rule_allow | Rule_block.

(** [struct access_policy]; a NULL slot of [rule] is [None]. *)
Record access_policy := AccessPolicy {
  ap_index : Z;
  ap_rule : list (option access_rule_t)
}.

Record client_data := ClientData {
  cd_index : Z;
  cd_policy : Z;
  cd_events : list event_item
}.

(** [struct userdata]. Modelled from the spec: [clients] is a [pa_hashmap]
    ([pulsecore/hashmap.c] is not among the sources) of entries "keyed by
    client index". *)
Record userdata := UserData {
  policies : pa_idxset access_policy;
  default_policy : Z;
  clients : gmap Z client_data
}.

Definition set_policies (u : userdata) (p : pa_idxset access_policy) :=
  {| policies := p; default_policy := default_policy u; clients := clients u |}.
Definition set_default_policy (u : userdata) (i : Z) :=
  {| policies := policies u; default_policy := i; clients := clients u |}.
Definition set_clients (u : userdata) (m : gmap Z client_data) :=
  {| policies := policies u; default_policy := default_policy u; clients := m |}.
Definition set_cd_policy (cd : client_data) (p : Z) :=
  {| cd_index := cd_index cd; cd_policy := p; cd_events := cd_events cd |}.
Definition set_cd_events (cd : client_data) (l : list event_item) :=
  {| cd_index := cd_index cd; cd_policy := cd_policy cd; cd_events := l |}.

(** A write through the pointer [cd] that was looked up under key [i]. *)
Definition store_client (u : userdata) (i : Z) (cd : client_data) :=
  set_clients u (<[i := cd]> (clients u)).

Section Model.
Context `{K : pulse_abi}.

(** [client_data_new]: a zeroed entry with its index and policy, put
    into [u->clients] under [index], a key the host uses once. *)
Definition client_data_new (u : userdata) (index policy : Z) : userdata :=
  store_client u index
    {| cd_index := index; cd_policy := policy; cd_events := [] |}.

Definition client_data_get (u : userdata) (index : Z) : option client_data :=
  clients u !! index.

(** [pa_hashmap_remove_and_free] runs [client_data_free] on the entry,
    which releases its event items with it. *)
Definition client_data_remove (u : userdata) (index : Z) : userdata :=
  set_clients u (delete index (clients u)).

Definition call_rule (r : access_rule_t) (c : pa_core) (d : pa_access_data)
    (u : userdata) : option (pa_hook_result_t * userdata) :=
  match r with
  | Rule_check_owner => Some (rule_check_owner c d, u)
  | Rule_allow => Some (rule_allow c d, u)
  | Rule_block => Some (rule_block c d, u)
  end.

(** [access_policy_new]: every slot gets the disposition's rule, then
    the policy is put into [u->policies], which assigns [ap->index]. *)
Definition access_policy_new (u : userdata) (allow_all : bool)
  : Z * userdata :=
  let rule := replicate PA_ACCESS_HOOK_MAX
                (Some (if allow_all then Rule_allow else Rule_block)) in
  let ap := {| ap_index := idx_current (policies u); ap_rule := rule |} in
  let '(i, s) := pa_idxset_put (policies u) ap in
  (i, set_policies u s).

(** [ap->rule[h] = r] for the policy registered under handle [ap]. *)
Definition set_rule (ap : Z) (u : userdata) (hr : nat * access_rule_t)
  : userdata :=
  set_policies u
    (IdxSet
       (alter (λ p, {| ap_index := ap_index p;
                       ap_rule := <[hr.1 := Some hr.2]> (ap_rule p) |})
              ap (idx_entries (policies u)))
       (idx_current (policies u))).

Definition check_access (c : pa_core) (d : pa_access_data) (u : userdata)
  : option (pa_hook_result_t * userdata) :=
  match client_data_get u (client_index d) with
  | None => Some (PA_HOOK_STOP, u)            (* unknown client *)
  | Some cd =>
      ap ← pa_idxset_get_by_index (policies u) (cd_policy cd);
      rule ← ap_rule ap !! hook d;
      match rule with
      | Some r => call_rule r c d u
      | None => Some (PA_HOOK_STOP, u)
      end
  end.

(** [pa_hook_fire(&c->access[h], &data)], the module's own callback being
    the only one connected to the hook: [pa__init] connects [check_access]
    to every access hook but [PA_ACCESS_HOOK_FILTER_SUBSCRIBE_EVENT], to
    which it connects [filter_event]; fired from [filter_event] on its own
    hook the call would re-enter with the same event for ever. *)
Definition pa_hook_fire (c : pa_core) (h : nat) (data : pa_access_data)
    (u : userdata) : option (pa_hook_result_t * userdata) :=
  if h =? PA_ACCESS_HOOK_FILTER_SUBSCRIBE_EVENT then None
  else check_access c data u.

(** The body of [case PA_SUBSCRIPTION_EVENT_NEW], also reached by the
    fall-through of [case PA_SUBSCRIPTION_EVENT_CHANGE]. *)
Definition filter_event_new (c : pa_core) (d : pa_access_data)
    (u : userdata) (facility : Z) : option (pa_hook_result_t * userdata) :=
  h ← event_hook !! Z.to_nat facility;
  let data := with_hook d h in
  if hook data =? 0 then Some (PA_HOOK_STOP, u)
  else
    '(r, u') ← pa_hook_fire c (hook data) data u;
    if decide (r = PA_HOOK_OK) then
      cd ← client_data_get u' (client_index d);
      Some (PA_HOOK_OK,
            store_client u' (client_index d)
              (set_cd_events cd (add_event (cd_events cd) facility (object_index d))))
    else Some (PA_HOOK_STOP, u').

Definition filter_event (c : pa_core) (d : pa_access_data) (u : userdata)
  : option (pa_hook_result_t * userdata) :=
  let facility := Z.land (event d) PA_SUBSCRIPTION_EVENT_FACILITY_MASK in
  match client_data_get u (client_index d) with
  | None => Some (PA_HOOK_STOP, u)   (* unknown client destination *)
  | Some cd =>
      let type := Z.land (event d) PA_SUBSCRIPTION_EVENT_TYPE_MASK in
      if (type =? PA_SUBSCRIPTION_EVENT_REMOVE)%Z then
        let '(found, events) := remove_event (cd_events cd) facility (object_index d) in
        if found then
          Some (PA_HOOK_OK, store_client u (client_index d) (set_cd_events cd events))
        else Some (PA_HOOK_STOP, u)
      else if (type =? PA_SUBSCRIPTION_EVENT_CHANGE)%Z then
        match find_event (cd_events cd) facility (object_index d) with
        | Some _ => Some (PA_HOOK_OK, u)
        | None => filter_event_new c d u facility
        end
      else if (type =? PA_SUBSCRIPTION_EVENT_NEW)%Z then
        filter_event_new c d u facility
      else Some (PA_HOOK_STOP, u)
  end.

(** The callback [pa__init] connects to access hook [i]. *)
Definition access_hook_cb (i : nat) (c : pa_core) (d : pa_access_data)
    (u : userdata) : option (pa_hook_result_t * userdata) :=
  if i =? PA_ACCESS_HOOK_FILTER_SUBSCRIBE_EVENT then filter_event c d u
  else check_access c d u.

Definition find_policy_for_client (u : userdata) (cl : pa_client) : Z :=
  default_policy u.

Definition client_put_cb (cl : pa_client) (u : userdata) : userdata :=
  let policy := find_policy_for_client u cl in
  client_data_new u (cl_index cl) policy.

Definition client_proplist_changed_cb (cl : pa_client) (u : userdata)
  : userdata :=
  match client_data_get u (cl_index cl) with
  | None => u
  | Some cd =>
      let policy := find_policy_for_client u cl in
      store_client u (cl_index cl) (set_cd_policy cd policy)
  end.

Definition client_unlink_cb (cl : pa_client) (u : userdata) : userdata :=
  client_data_remove u (cl_index cl).

(** The slots [pa__init] overwrites in the default policy, in order. *)
Definition default_policy_rules : list (nat * access_rule_t) :=
  [ (PA_ACCESS_HOOK_GET_SINK_INFO, Rule_allow);
    (PA_ACCESS_HOOK_GET_SOURCE_INFO, Rule_allow);
    (PA_ACCESS_HOOK_GET_SERVER_INFO, Rule_allow);
    (PA_ACCESS_HOOK_GET_MODULE_INFO, Rule_allow);
    (PA_ACCESS_HOOK_GET_CARD_INFO, Rule_allow);
    (PA_ACCESS_HOOK_STAT, Rule_allow);
    (PA_ACCESS_HOOK_GET_SAMPLE_INFO, Rule_allow);
    (PA_ACCESS_HOOK_PLAY_SAMPLE, Rule_allow);
    (PA_ACCESS_HOOK_CONNECT_PLAYBACK, Rule_allow);
    (PA_ACCESS_HOOK_GET_CLIENT_INFO, Rule_check_owner);
    (PA_ACCESS_HOOK_KILL_CLIENT, Rule_check_owner);
    (PA_ACCESS_HOOK_GET_SINK_INPUT_INFO, Rule_check_owner);
    (PA_ACCESS_HOOK_MOVE_SINK_INPUT, Rule_check_owner);
    (PA_ACCESS_HOOK_SET_SINK_INPUT_VOLUME, Rule_check_owner);
    (PA_ACCESS_HOOK_SET_SINK_INPUT_MUTE, Rule_check_owner);
    (PA_ACCESS_HOOK_KILL_SINK_INPUT, Rule_check_owner);
    (PA_ACCESS_HOOK_GET_SOURCE_OUTPUT_INFO, Rule_check_owner);
    (PA_ACCESS_HOOK_MOVE_SOURCE_OUTPUT, Rule_check_owner);
    (PA_ACCESS_HOOK_SET_SOURCE_OUTPUT_VOLUME, Rule_check_owner);
    (PA_ACCESS_HOOK_SET_SOURCE_OUTPUT_MUTE, Rule_check_owner);
    (PA_ACCESS_HOOK_KILL_SOURCE_OUTPUT, Rule_check_owner) ].

(** [pa__init] on its successful path: the state it leaves in
    [m->userdata]. *)
Definition pa__init : userdata :=
  let u := {| policies := pa_idxset_new; default_policy := 0; clients := ∅ |} in
  let '(ap, u) := access_policy_new u false in
  let u := foldl (set_rule ap) u default_policy_rules in
  set_default_policy u ap.

(** The filter run over a sequence of events, each with the host state
    it is delivered in; the results come back in order. *)
Fixpoint run_filter (steps : list (pa_core * pa_access_data)) (u : userdata)
  : option (list pa_hook_result_t * userdata) :=
  match steps with
  | [] => Some ([], u)
  | (c, d) :: rest =>
      '(r, u1) ← filter_event c d u;
      '(rs, u2) ← run_filter rest u1;
      Some (r :: rs, u2)
  end.

Definition seen (u : userdata) (client : Z) : list event_item :=
  match clients u !! client with
  | Some cd => cd_events cd
  | None => []
  end.
End Model.
End Access.

(** ** The message bus as module-flatpak.c uses it *)

Inductive DBusValue :=
  | DBUS_TYPE_UINT32 (v : Z)
  | DBUS_TYPE_STRING (s : string)
  | DBUS_TYPE_OBJECT_PATH (p : string)
  | DBUS_TYPE_ARRAY (signature : string) (elements : list string).

Inductive DBusMessageType :=
  | DBUS_MESSAGE_TYPE_METHOD_CALL
  | DBUS_MESSAGE_TYPE_METHOD_RETURN
  | DBUS_MESSAGE_TYPE_ERROR
  | DBUS_MESSAGE_TYPE_SIGNAL.

Record DBusMessage := Message {
  msg_type : DBusMessageType;
  msg_destination : string;
  msg_path : string;
  msg_interface : string;
  msg_member : string;
  msg_args : list DBusValue
}.

Inductive DBusHandlerResult :=
  | DBUS_HANDLER_RESULT_HANDLED
  | DBUS_HANDLER_RESULT_NOT_YET_HANDLED.

Definition dbus_message_new_method_call (destination path iface method : string)
  : DBusMessage :=
  Message DBUS_MESSAGE_TYPE_METHOD_CALL destination path iface method [].

Definition dbus_message_append (m : DBusMessage) (v : DBusValue) : DBusMessage :=
  Message (msg_type m) (msg_destination m) (msg_path m) (msg_interface m)
          (msg_member m) (msg_args m ++ [v]).

Definition dbus_message_is_signal (msg : DBusMessage) (iface name : string) : bool :=
  match msg_type msg with
  | DBUS_MESSAGE_TYPE_SIGNAL =>
      String.eqb (msg_interface msg) iface && String.eqb (msg_member msg) name
  | _ => false
  end.

(** Modelled from the spec: [dbus_message_get_args] with one
    [DBUS_TYPE_UINT32] ("Parse the first argument as an unsigned response
    code"); on failure the output variable is left as it was. *)
Definition dbus_message_get_args_uint32 (msg : DBusMessage) : option Z :=
  match msg_args msg with
  | DBUS_TYPE_UINT32 v :: _ => Some v
  | _ => None
  end.

(** Modelled from the spec: [dbus_message_get_args] with one
    [DBUS_TYPE_OBJECT_PATH] ("The method call returns a handle path"). *)
Definition dbus_message_get_args_object_path (msg : DBusMessage) : option string :=
  match msg_args msg with
  | DBUS_TYPE_OBJECT_PATH p :: _ => Some p
  | _ => None
  end.

(** The connection: the [portal_response] filters registered on it, each
    with its [user_data] (the client entry, named by its key), the method
    calls sent and the match rules added. *)
Record DBusConnection := Connection {
  conn_filters : list Z;
  conn_sent : list DBusMessage;
  conn_matches : list string
}.

(** [dbus_connection_remove_filter]: the most recently added filter with
    that function and [user_data] goes; none is removed when none matches. *)
Fixpoint remove_first_key (k : Z) (l : list Z) : list Z :=
  match l with
  | [] => []
  | x :: rest => if (x =? k)%Z then rest else x :: remove_first_key k rest
  end.

Definition dbus_connection_remove_filter (conn : DBusConnection) (user_data : Z)
  : DBusConnection :=
  Connection (reverse (remove_first_key user_data (reverse (conn_filters conn))))
             (conn_sent conn) (conn_matches conn).

Definition dbus_connection_add_filter (conn : DBusConnection) (user_data : Z)
  : DBusConnection :=
  Connection (conn_filters conn ++ [user_data]) (conn_sent conn) (conn_matches conn).

Definition dbus_bus_add_match (conn : DBusConnection) (rule : string)
  : DBusConnection :=
  Connection (conn_filters conn) (conn_sent conn) (conn_matches conn ++ [rule]).

Definition dbus_connection_send (conn : DBusConnection) (m : DBusMessage)
  : DBusConnection :=
  Connection (conn_filters conn) (conn_sent conn ++ [m]) (conn_matches conn).

(** What the world outside answers during one [rule_check_portal]: whether
    the two allocating calls succeed, the reply to the blocking method
    call ([None]: the call failed), whether [dbus_bus_add_match] set the
    error. *)
Record bus_env := BusEnv {
  env_new_method_call_ok : bool;
  env_append_args_ok : bool;
  env_reply : option DBusMessage;
  env_add_match_error : bool
}.

(** ** module-flatpak.c: the sandbox-aware broker *)

Module Flatpak.

Inductive access_rule_t :=
  Rule_check_owner | Rule_allow | Rule_block | Rule_check_portal.

Record access_policy := AccessPolicy {
  ap_index : Z;
  ap_rule : list (option access_rule_t)
}.

Record async_cache := AsyncCache { checked : bool; granted : bool }.

(** [struct client_data]; [access_data] is the pointer to the request
    under arbitration (NULL in a fresh entry). The [time_event], created
    disabled and never armed by the module, is left out. *)
Record client_data := ClientData {
  cd_index : Z;
  cd_policy : Z;
  cd_pid : Z;
  cd_cached : list async_cache;
  cd_access_data : option pa_access_data;
  cd_events : list event_item
}.

(** [struct userdata], with an established bus [connection]. Modelled
    from the spec: [clients] is a [pa_hashmap] ([pulsecore/hashmap.c] is
    not among the sources) of entries "keyed by client index". *)
Record userdata := UserData {
  policies : pa_idxset access_policy;
  default_policy : Z;
  portal_policy : Z;
  connection : DBusConnection;
  clients : gmap Z client_data
}.

Definition set_policies (u : userdata) (p : pa_idxset access_policy) :=
  {| policies := p; default_policy := default_policy u;
     portal_policy := portal_policy u; connection := connection u;
     clients := clients u |}.
Definition set_default_policy (u : userdata) (i : Z) :=
  {| policies := policies u; default_policy := i;
     portal_policy := portal_policy u; connection := connection u;
     clients := clients u |}.
Definition set_portal_policy (u : userdata) (i : Z) :=
  {| policies := policies u; default_policy := default_policy u;
     portal_policy := i; connection := connection u; clients := clients u |}.
Definition set_connection (u : userdata) (conn : DBusConnection) :=
  {| policies := policies u; default_policy := default_policy u;
     portal_policy := portal_policy u; connection := conn;
     clients := clients u |}.
Definition set_clients (u : userdata) (m : gmap Z client_data) :=
  {| policies := policies u; default_policy := default_policy u;
     portal_policy := portal_policy u; connection := connection u;
     clients := m |}.

Definition set_cd_policy_pid (cd : client_data) (p pid : Z) :=
  {| cd_index := cd_index cd; cd_policy := p; cd_pid := pid;
     cd_cached := cd_cached cd; cd_access_data := cd_access_data cd;
     cd_events := cd_events cd |}.
Definition set_cd_cached (cd : client_data) (l : list async_cache) :=
  {| cd_index := cd_index cd; cd_policy := cd_policy cd; cd_pid := cd_pid cd;
     cd_cached := l; cd_access_data := cd_access_data cd;
     cd_events := cd_events cd |}.
Definition set_cd_access_data (cd : client_data) (d : option pa_access_data) :=
  {| cd_index := cd_index cd; cd_policy := cd_policy cd; cd_pid := cd_pid cd;
     cd_cached := cd_cached cd; cd_access_data := d;
     cd_events := cd_events cd |}.
Definition set_cd_events (cd : client_data) (l : list event_item) :=
  {| cd_index := cd_index cd; cd_policy := cd_policy cd; cd_pid := cd_pid cd;
     cd_cached := cd_cached cd; cd_access_data := cd_access_data cd;
     cd_events := l |}.

(** A write through the pointer [cd] that was looked up under key [i]. *)
Definition store_client (u : userdata) (i : Z) (cd : client_data) :=
  set_clients u (<[i := cd]> (clients u)).

Definition client_data_get (u : userdata) (index : Z) : option client_data :=
  clients u !! index.

(** [pa_hashmap_remove_and_free] runs [client_data_free] on the entry:
    the event items and the timer are released, the entry is freed.
    Nothing is done to the connection. *)
Definition client_data_remove (u : userdata) (index : Z) : userdata :=
  set_clients u (delete index (clients u)).

(** A call of [d->async_finish_cb (d, granted)] made to the host. *)
Definition finish_call : Type := pa_access_data * bool.

(** [portal_response], the connection filter registered with
    [user_data] = the entry under key [cd_key]. The result carries the
    calls of [async_finish_cb] it made. *)
Definition portal_response (msg : DBusMessage) (cd_key : Z) (u : userdata)
  : option (DBusHandlerResult * userdata * list finish_call) :=
  cd ← client_data_get u cd_key;             (* a freed entry otherwise *)
  if dbus_message_is_signal msg "org.freedesktop.portal.Request" "Response" then
    let response := 2%Z in
    let u := set_connection u (dbus_connection_remove_filter (connection u) cd_key) in
    let response :=
      match dbus_message_get_args_uint32 msg with
      | Some v => v
      | None => response                      (* failed to parse Response *)
      end in
    d ← cd_access_data cd;
    if decide (hook d < length (cd_cached cd)) then
      let g := if (response =? 0)%Z then true else false in
      let cd := set_cd_cached cd (<[hook d := AsyncCache true g]> (cd_cached cd)) in
      Some (DBUS_HANDLER_RESULT_HANDLED, store_client u cd_key cd, [(d, g)])
    else None
  else Some (DBUS_HANDLER_RESULT_NOT_YET_HANDLED, u, []).


Section Model.
Context `{K : pulse_abi}.

(** [client_data_new]: a zeroed entry (no slot checked, no request
    pending, nothing seen) with its index, policy and pid, put into
    [u->clients] under [index], a key the host uses once. *)
Definition client_data_new (u : userdata) (index policy pid : Z) : userdata :=
  store_client u index
    {| cd_index := index; cd_policy := policy; cd_pid := pid;
       cd_cached := replicate PA_ACCESS_HOOK_MAX (AsyncCache false false);
       cd_access_data := None; cd_events := [] |}.

(** The [device] string [rule_check_portal] picks;
    [pa_assert_not_reached] for any other hook. *)
Definition portal_device (h : nat) : option string :=
  if h =? PA_ACCESS_HOOK_CONNECT_RECORD then Some "microphone"
  else if (h =? PA_ACCESS_HOOK_CONNECT_PLAYBACK) || (h =? PA_ACCESS_HOOK_PLAY_SAMPLE)
  then Some "speakers"
  else None.

(** The [AccessDevice] call as [rule_check_portal] fills it in; the
    [pid_t] is appended as a [DBUS_TYPE_UINT32]. *)
Definition access_device_call (pid : Z) (device : string) : DBusMessage :=
  let m := dbus_message_new_method_call "org.freedesktop.portal.Desktop"
             "/org/freedesktop/portal/desktop"
             "org.freedesktop.portal.Device" "AccessDevice" in
  let m := dbus_message_append m (DBUS_TYPE_UINT32 (pid mod 2 ^ 32)) in
  let m := dbus_message_append m (DBUS_TYPE_ARRAY "s" [device]) in
  dbus_message_append m (DBUS_TYPE_ARRAY "{sv}" []).

Definition rule_check_portal (env : bus_env) (c : pa_core)
    (d : pa_access_data) (u : userdata)
  : option (pa_hook_result_t * userdata) :=
  cd ← client_data_get u (client_index d);
  slot ← cd_cached cd !! hook d;
  if checked slot then
    Some (if granted slot then PA_HOOK_OK else PA_HOOK_STOP, u)
  else
    (* cd->access_data = d; *)
    let u := store_client u (client_index d) (set_cd_access_data cd (Some d)) in
    if negb (env_new_method_call_ok env) then Some (PA_HOOK_STOP, u)
    else
      device ← portal_device (hook d);
      let pid := cd_pid cd in
      if negb (env_append_args_ok env) then Some (PA_HOOK_STOP, u)
      else
        let m := access_device_call pid device in
        let u := set_connection u (dbus_connection_send (connection u) m) in
        match env_reply env with
        | None => Some (PA_HOOK_STOP, u)          (* failed to call portal *)
        | Some r =>
            match dbus_message_get_args_object_path r with
            | None => Some (PA_HOOK_STOP, u)      (* no handle in the reply *)
            | Some handle =>
                let u := set_connection u
                           (dbus_bus_add_match (connection u)
                              "type='signal',interface='org.freedesktop.portal.Request'") in
                if env_add_match_error env then Some (PA_HOOK_STOP, u)
                else
                  Some (PA_HOOK_CANCEL,
                        set_connection u
                          (dbus_connection_add_filter (connection u) (client_index d)))
            end
        end.

Definition call_rule (r : access_rule_t) (env : bus_env) (c : pa_core)
    (d : pa_access_data) (u : userdata)
  : option (pa_hook_result_t * userdata) :=
  match r with
  | Rule_check_owner => Some (rule_check_owner c d, u)
  | Rule_allow => Some (rule_allow c d, u)
  | Rule_block => Some (rule_block c d, u)
  | Rule_check_portal => rule_check_portal env c d u
  end.

Definition access_policy_new (u : userdata) (allow_all : bool)
  : Z * userdata :=
  let rule := replicate PA_ACCESS_HOOK_MAX
                (Some (if allow_all then Rule_allow else Rule_block)) in
  let ap := {| ap_index := idx_current (policies u); ap_rule := rule |} in
  let '(i, s) := pa_idxset_put (policies u) ap in
  (i, set_policies u s).

(** [ap->rule[h] = r] for the policy registered under handle [ap]. *)
Definition set_rule (ap : Z) (u : userdata) (hr : nat * access_rule_t)
  : userdata :=
  set_policies u
    (IdxSet
       (alter (λ p, {| ap_index := ap_index p;
                       ap_rule := <[hr.1 := Some hr.2]> (ap_rule p) |})
              ap (idx_entries (policies u)))
       (idx_current (policies u))).

Definition check_access (env : bus_env) (c : pa_core) (d : pa_access_data)
    (u : userdata) : option (pa_hook_result_t * userdata) :=
  match client_data_get u (client_index d) with
  | None => Some (PA_HOOK_STOP, u)            (* unknown client *)
  | Some cd =>
      ap ← pa_idxset_get_by_index (policies u) (cd_policy cd);
      rule ← ap_rule ap !! hook d;
      match rule with
      | Some r => call_rule r env c d u
      | None => Some (PA_HOOK_STOP, u)
      end
  end.

(** [pa_hook_fire(&c->access[h], &data)], the module's own callback being
    the only one connected to the hook: [pa__init] connects [check_access]
    to every access hook but [PA_ACCESS_HOOK_FILTER_SUBSCRIBE_EVENT], to
    which it connects [filter_event]; fired from [filter_event] on its own
    hook the call would re-enter with the same event for ever. *)
Definition pa_hook_fire (env : bus_env) (c : pa_core) (h : nat)
    (data : pa_access_data) (u : userdata)
  : option (pa_hook_result_t * userdata) :=
  if h =? PA_ACCESS_HOOK_FILTER_SUBSCRIBE_EVENT then None
  else check_access env c data u.

(** The body of [case PA_SUBSCRIPTION_EVENT_NEW], also reached by the
    fall-through of [case PA_SUBSCRIPTION_EVENT_CHANGE]. *)
Definition filter_event_new (env : bus_env) (c : pa_core)
    (d : pa_access_data) (u : userdata) (facility : Z)
  : option (pa_hook_result_t * userdata) :=
  h ← event_hook !! Z.to_nat facility;
  let data := with_hook d h in
  if hook data =? 0 then Some (PA_HOOK_STOP, u)
  else
    '(r, u') ← pa_hook_fire env c (hook data) data u;
    if decide (r = PA_HOOK_OK) then
      cd ← client_data_get u' (client_index d);
      Some (PA_HOOK_OK,
            store_client u' (client_index d)
              (set_cd_events cd (add_event (cd_events cd) facility (object_index d))))
    else Some (PA_HOOK_STOP, u').

Definition filter_event (env : bus_env) (c : pa_core) (d : pa_access_data)
    (u : userdata) : option (pa_hook_result_t * userdata) :=
  let facility := Z.land (event d) PA_SUBSCRIPTION_EVENT_FACILITY_MASK in
  match client_data_get u (client_index d) with
  | None => Some (PA_HOOK_STOP, u)   (* unknown client destination *)
  | Some cd =>
      let type := Z.land (event d) PA_SUBSCRIPTION_EVENT_TYPE_MASK in
      if (type =? PA_SUBSCRIPTION_EVENT_REMOVE)%Z then
        let '(found, events) := remove_event (cd_events cd) facility (object_index d) in
        if found then
          Some (PA_HOOK_OK, store_client u (client_index d) (set_cd_events cd events))
        else Some (PA_HOOK_STOP, u)
      else if (type =? PA_SUBSCRIPTION_EVENT_CHANGE)%Z then
        match find_event (cd_events cd) facility (object_index d) with
        | Some _ => Some (PA_HOOK_OK, u)
        | None => filter_event_new env c d u facility
        end
      else if (type =? PA_SUBSCRIPTION_EVENT_NEW)%Z then
        filter_event_new env c d u facility
      else Some (PA_HOOK_STOP, u)
  end.

(** The callback [pa__init] connects to access hook [i]. *)
Definition access_hook_cb (i : nat) (env : bus_env) (c : pa_core)
    (d : pa_access_data) (u : userdata)
  : option (pa_hook_result_t * userdata) :=
  if i =? PA_ACCESS_HOOK_FILTER_SUBSCRIBE_EVENT then filter_event env c d u
  else check_access env c d u.

(** [strcspn(s, "\n")]. *)
Fixpoint strcspn_newline (s : string) : nat :=
  match s with
  | EmptyString => 0
  | String ch rest =>
      if Ascii.eqb ch "010"%char then 0 else S (strcspn_newline rest)
  end.

Fixpoint string_drop (n : nat) (s : string) : string :=
  match n, s with
  | S n', String _ rest => string_drop n' rest
  | _, _ => s
  end.

(** Modelled from the spec: [pa_split_in_place] with delimiter
    ["\n"] ([pulsecore/core-util.c] is not among the sources), by which
    the detector "scans line by line": from the position [state] it
    yields the rest of the buffer there, the length [n] of the line that
    starts it and the position after that line; nothing at the end of
    the buffer. *)
Definition pa_split_in_place (state : string) : option (string * nat * string) :=
  match state with
  | EmptyString => None
  | _ =>
      let l := strcspn_newline state in
      Some (state, l, string_drop (S l) state)
  end.

(** The [while] loop of [client_is_sandboxed]; every turn consumes at
    least one byte of the buffer, which bounds [fuel]. *)
Fixpoint cgroup_scan (fuel : nat) (state : string) : bool :=
  match fuel with
  | 0 => false
  | S fuel' =>
      match pa_split_in_place state with
      | None => false
      | Some (current, n, state') =>
          if String.prefix "1:name=systemd:" current then
            match String.index 0 "flatpak-" current with
            | Some p => if p <? n then true else cgroup_scan fuel' state'
            | None => cgroup_scan fuel' state'
            end
          else cgroup_scan fuel' state'
      end
  end.

(** [client_is_sandboxed]; [proc_cgroup pid] is the content of
    [/proc/<pid>/cgroup], [None] when it cannot be opened. The buffer
    holds the first 2048 bytes and is taken to end there. *)
Definition client_is_sandboxed (proc_cgroup : Z → option string)
    (cl : pa_client) : bool :=
  if cl_creds_valid cl then
    let pid := cl_creds_pid cl in
    match proc_cgroup pid with
    | None => false
    | Some file =>
        let data := String.substring 0 2048 file in
        cgroup_scan (S (String.length data)) data
    end
  else false.

(** [find_policy_for_client]: the proplist is logged and
    [u->default_policy] is returned; the statements after that [return]
    are never executed. *)
Definition find_policy_for_client (u : userdata) (cl : pa_client) : Z :=
  default_policy u.

(** The statements of [find_policy_for_client] that follow its first
    [return], as they would run. *)
Definition find_policy_for_client_after_return
    (proc_cgroup : Z → option string) (u : userdata) (cl : pa_client) : Z :=
  if client_is_sandboxed proc_cgroup cl then portal_policy u
  else default_policy u.

Definition client_put_cb (cl : pa_client) (u : userdata) : userdata :=
  let policy := find_policy_for_client u cl in
  client_data_new u (cl_index cl) policy (cl_creds_pid cl).

Definition client_auth_cb (cl : pa_client) (u : userdata) : userdata :=
  match client_data_get u (cl_index cl) with
  | None => u
  | Some cd =>
      let policy := find_policy_for_client u cl in
      store_client u (cl_index cl) (set_cd_policy_pid cd policy (cl_creds_pid cl))
  end.

Definition client_proplist_changed_cb (cl : pa_client) (u : userdata)
  : userdata :=
  match client_data_get u (cl_index cl) with
  | None => u
  | Some cd =>
      let policy := find_policy_for_client u cl in
      store_client u (cl_index cl) (set_cd_policy_pid cd policy (cl_creds_pid cl))
  end.

Definition client_unlink_cb (cl : pa_client) (u : userdata) : userdata :=
  client_data_remove u (cl_index cl).

(** The slots both policies of [pa__init] overwrite alike. *)
Definition allow_rules : list (nat * access_rule_t) :=
  [ (PA_ACCESS_HOOK_GET_SINK_INFO, Rule_allow);
    (PA_ACCESS_HOOK_GET_SOURCE_INFO, Rule_allow);
    (PA_ACCESS_HOOK_GET_SERVER_INFO, Rule_allow);
    (PA_ACCESS_HOOK_GET_MODULE_INFO, Rule_allow);
    (PA_ACCESS_HOOK_GET_CARD_INFO, Rule_allow);
    (PA_ACCESS_HOOK_STAT, Rule_allow);
    (PA_ACCESS_HOOK_GET_SAMPLE_INFO, Rule_allow) ].

Definition owner_rules : list (nat * access_rule_t) :=
  [ (PA_ACCESS_HOOK_GET_CLIENT_INFO, Rule_check_owner);
    (PA_ACCESS_HOOK_KILL_CLIENT, Rule_check_owner);
    (PA_ACCESS_HOOK_GET_SINK_INPUT_INFO, Rule_check_owner);
    (PA_ACCESS_HOOK_MOVE_SINK_INPUT, Rule_check_owner);
    (PA_ACCESS_HOOK_SET_SINK_INPUT_VOLUME, Rule_check_owner);
    (PA_ACCESS_HOOK_SET_SINK_INPUT_MUTE, Rule_check_owner);
    (PA_ACCESS_HOOK_KILL_SINK_INPUT, Rule_check_owner);
    (PA_ACCESS_HOOK_GET_SOURCE_OUTPUT_INFO, Rule_check_owner);
    (PA_ACCESS_HOOK_MOVE_SOURCE_OUTPUT, Rule_check_owner);
    (PA_ACCESS_HOOK_SET_SOURCE_OUTPUT_VOLUME, Rule_check_owner);
    (PA_ACCESS_HOOK_SET_SOURCE_OUTPUT_MUTE, Rule_check_owner);
    (PA_ACCESS_HOOK_KILL_SOURCE_OUTPUT, Rule_check_owner) ].

(** The slots [pa__init] overwrites in the first policy, in order. *)
Definition default_policy_rules : list (nat * access_rule_t) :=
  allow_rules
  ++ [ (PA_ACCESS_HOOK_PLAY_SAMPLE, Rule_allow);
       (PA_ACCESS_HOOK_CONNECT_PLAYBACK, Rule_allow);
       (PA_ACCESS_HOOK_CONNECT_RECORD, Rule_allow) ]
  ++ owner_rules.

(** The slots [pa__init] overwrites in the second policy, in order. *)
Definition portal_policy_rules : list (nat * access_rule_t) :=
  allow_rules
  ++ [ (PA_ACCESS_HOOK_PLAY_SAMPLE, Rule_check_portal);
       (PA_ACCESS_HOOK_CONNECT_PLAYBACK, Rule_check_portal);
       (PA_ACCESS_HOOK_CONNECT_RECORD, Rule_check_portal) ]
  ++ owner_rules.

(** [pa__init] on its successful path, the session bus connected: the
    state it leaves in [m->userdata]. *)
Definition pa__init : userdata :=
  let u := {| policies := pa_idxset_new; default_policy := 0;
              portal_policy := 0; connection := Connection [] [] [];
              clients := ∅ |} in
  let '(ap, u) := access_policy_new u false in
  let u := foldl (set_rule ap) u default_policy_rules in
  let u := set_default_policy u ap in
  let '(ap, u) := access_policy_new u false in
  let u := foldl (set_rule ap) u portal_policy_rules in
  set_portal_policy u ap.

(** The filter run over a sequence of events, each with the host state
    and the bus answers it is delivered under; the results come back in
    order. *)
Fixpoint run_filter (steps : list (bus_env * pa_core * pa_access_data))
    (u : userdata) : option (list pa_hook_result_t * userdata) :=
  match steps with
  | [] => Some ([], u)
  | (env, c, d) :: rest =>
      '(r, u1) ← filter_event env c d u;
      '(rs, u2) ← run_filter rest u1;
      Some (r :: rs, u2)
  end.


Definition seen (u : userdata) (client : Z) : list event_item :=
  match clients u !! client with
  | Some cd => cd_events cd
  | None => []
  end.
End Model.
End Flatpak.

(** ** Vocabulary of the specification *)

Section Statements.
Context `{K : pulse_abi}.

(** The fixed mapping from a facility to its get-info hook; nil (zero)
    for every other facility code. *)
Definition facility_get_info_hook (facility : Z) : nat :=
  if decide (facility = PA_SUBSCRIPTION_EVENT_SINK) then
    PA_ACCESS_HOOK_GET_SINK_INFO
  else if decide (facility = PA_SUBSCRIPTION_EVENT_SOURCE) then
    PA_ACCESS_HOOK_GET_SOURCE_INFO
  else if decide (facility = PA_SUBSCRIPTION_EVENT_SINK_INPUT) then
    PA_ACCESS_HOOK_GET_SINK_INPUT_INFO
  else if decide (facility = PA_SUBSCRIPTION_EVENT_SOURCE_OUTPUT) then
    PA_ACCESS_HOOK_GET_SOURCE_OUTPUT_INFO
  else if decide (facility = PA_SUBSCRIPTION_EVENT_MODULE) then
    PA_ACCESS_HOOK_GET_MODULE_INFO
  else if decide (facility = PA_SUBSCRIPTION_EVENT_CLIENT) then
    PA_ACCESS_HOOK_GET_CLIENT_INFO
  else if decide (facility = PA_SUBSCRIPTION_EVENT_SAMPLE_CACHE) then
    PA_ACCESS_HOOK_GET_SAMPLE_INFO
  else if decide (facility = PA_SUBSCRIPTION_EVENT_SERVER) then
    PA_ACCESS_HOOK_GET_SERVER_INFO
  else if decide (facility = PA_SUBSCRIPTION_EVENT_CARD) then
    PA_ACCESS_HOOK_GET_CARD_INFO
  else 0.

(** The pair (facility, object index) a subscription event is about. *)
Definition pair_of (d : pa_access_data) : event_item :=
  EventItem (event_facility d) (object_index d).

Definition concerns (client : Z) (p : event_item) (d : pa_access_data) : Prop :=
  client_index d = client ∧ pair_of d = p.

(** A trace pairs each event handed to the filter with the filter's
    answer. [told tr client p]: the client received a NEW or CHANGE for
    the pair [p] that the filter let through, and no REMOVE for [p] has
    been let through to it since. *)
Definition told (tr : list (pa_access_data * pa_hook_result_t))
    (client : Z) (p : event_item) : Prop :=
  ∃ pre d post,
    tr = pre ++ (d, PA_HOOK_OK) :: post
    ∧ concerns client p d
    ∧ (event_type d = PA_SUBSCRIPTION_EVENT_NEW
       ∨ event_type d = PA_SUBSCRIPTION_EVENT_CHANGE)
    ∧ ∀ d', (d', PA_HOOK_OK) ∈ post → concerns client p d' →
            event_type d' ≠ PA_SUBSCRIPTION_EVENT_REMOVE.

(** No NEW is let through for a pair its client is told about at that
    moment. *)
Definition no_repeated_new (tr : list (pa_access_data * pa_hook_result_t))
  : Prop :=
  ∀ pre d post,
    tr = pre ++ (d, PA_HOOK_OK) :: post →
    event_type d = PA_SUBSCRIPTION_EVENT_NEW →
    ¬ told pre (client_index d) (pair_of d).

(** The table of the event filter, row by row, for a broker with state
    [U]: [filter] is the filter, [engine] the decision engine, [seen_of]
    reads the seen list of a known client and [with_seen] replaces it. *)
Definition event_filter_table {U : Type}
    (filter engine : pa_access_data → U → option (pa_hook_result_t * U))
    (seen_of : U → Z → option (list event_item))
    (with_seen : U → Z → list event_item → U) : Prop :=
  ∀ d u l,
    seen_of u (client_index d) = Some l →
    let k := client_index d in
    let p := pair_of d in
    (* REMOVE, seen: the item found (the first for the pair) is unlinked *)
    (event_type d = PA_SUBSCRIPTION_EVENT_REMOVE → p ∈ l →
       ∃ l1 l2, l = l1 ++ p :: l2 ∧ (p ∉ l1)
                ∧ filter d u = Some (PA_HOOK_OK, with_seen u k (l1 ++ l2)))
    (* REMOVE, never observed *)
    ∧ (event_type d = PA_SUBSCRIPTION_EVENT_REMOVE → p ∉ l →
         filter d u = Some (PA_HOOK_STOP, u))
    (* CHANGE, seen *)
    ∧ (event_type d = PA_SUBSCRIPTION_EVENT_CHANGE → p ∈ l →
         filter d u = Some (PA_HOOK_OK, u))
    (* NEW, and CHANGE promoted *)
    ∧ (event_type d = PA_SUBSCRIPTION_EVENT_NEW
       ∨ (event_type d = PA_SUBSCRIPTION_EVENT_CHANGE ∧ p ∉ l) →
         let h := facility_get_info_hook (event_facility d) in
         if decide (h = 0) then filter d u = Some (PA_HOOK_STOP, u)
         else
           filter d u =
             ('(r, u') ← engine (with_hook d h) u;
              if decide (r = PA_HOOK_OK) then
                l' ← seen_of u' k;
                Some (PA_HOOK_OK, with_seen u' k (p :: l'))
              else Some (PA_HOOK_STOP, u')))
    (* any other type *)
    ∧ (event_type d ∉ named_event_types →
         filter d u = Some (PA_HOOK_STOP, u)).

(** The table of the event filter with the seen list read back. A run
    that [leaves u0 u' l'] ends in the state [u0] with the list of the
    client replaced by [l']: that list is what is read from [u'], and the
    lists of the other clients are those of [u]. A REMOVE unlinks one
    item, the first for the pair; a NEW prepends the pair without looking
    it up. *)
Definition event_filter_rows {U : Type}
    (filter engine : pa_access_data → U → option (pa_hook_result_t * U))
    (seen_of : U → Z → option (list event_item))
    (with_seen : U → Z → list event_item → U) : Prop :=
  ∀ d u l,
    seen_of u (client_index d) = Some l →
    let k := client_index d in
    let p := pair_of d in
    let leaves (u0 u' : U) (l' : list event_item) :=
      u' = with_seen u0 k l' ∧ seen_of u' k = Some l'
      ∧ ∀ k', k' ≠ k → seen_of u' k' = seen_of u k' in
    (* REMOVE, seen: the first item for the pair is unlinked *)
    (event_type d = PA_SUBSCRIPTION_EVENT_REMOVE → p ∈ l →
       ∃ u' l1 l2, filter d u = Some (PA_HOOK_OK, u')
                   ∧ l = l1 ++ p :: l2 ∧ (p ∉ l1) ∧ leaves u u' (l1 ++ l2))
    (* REMOVE, never observed *)
    ∧ (event_type d = PA_SUBSCRIPTION_EVENT_REMOVE → p ∉ l →
         filter d u = Some (PA_HOOK_STOP, u))
    (* CHANGE, seen *)
    ∧ (event_type d = PA_SUBSCRIPTION_EVENT_CHANGE → p ∈ l →
         filter d u = Some (PA_HOOK_OK, u))
    (* NEW, and CHANGE promoted *)
    ∧ (event_type d = PA_SUBSCRIPTION_EVENT_NEW
       ∨ (event_type d = PA_SUBSCRIPTION_EVENT_CHANGE ∧ p ∉ l) →
         let h := facility_get_info_hook (event_facility d) in
         if decide (h = 0) then filter d u = Some (PA_HOOK_STOP, u)
         else
           match engine (with_hook d h) u with
           | Some (r, u1) =>
               if decide (r = PA_HOOK_OK) then
                 ∃ u', filter d u = Some (PA_HOOK_OK, u') ∧ leaves u1 u' (p :: l)
               else filter d u = Some (PA_HOOK_STOP, u1)
           | None => filter d u = None
           end)
    (* any other type *)
    ∧ (event_type d ∉ named_event_types →
         filter d u = Some (PA_HOOK_STOP, u)).

(** The reading of the REMOVE row of C2 on module-flatpak.c: a REMOVE for
    a pair on the seen list of a known client is answered OK and the pair
    is off the list afterwards. *)
Definition remove_forgets_the_pair : Prop :=
  ∀ env c d u l r u',
    Flatpak.cd_events <$> Flatpak.clients u !! client_index d = Some l →
    event_type d = PA_SUBSCRIPTION_EVENT_REMOVE →
    pair_of d ∈ l →
    Flatpak.filter_event env c d u = Some (r, u') →
    r = PA_HOOK_OK ∧ pair_of d ∉ Flatpak.seen u' (client_index d).

(** Nobody owns the target of [d]: the hook is outside the three groups,
    or the stream is absent or has no client. *)
Definition nobody_owns (c : pa_core) (d : pa_access_data) : Prop :=
  hook d ∉ client_hooks ++ sink_input_hooks ++ source_output_hooks
  ∨ (hook d ∈ sink_input_hooks
     ∧ ∀ si, sink_inputs c !! object_index d = Some si → si_client si = None)
  ∨ (hook d ∈ source_output_hooks
     ∧ ∀ so, source_outputs c !! object_index d = Some so → so_client so = None).





(** What a run of the decision engine can do to the broker state: the
    policies stay, and of the client entries only the asking client's
    pointer to its pending request may change. *)
Definition only_pending_changed (d : pa_access_data) (u u' : Flatpak.userdata)
  : Prop :=
  Flatpak.policies u' = Flatpak.policies u
  ∧ Flatpak.default_policy u' = Flatpak.default_policy u
  ∧ Flatpak.portal_policy u' = Flatpak.portal_policy u
  ∧ (Flatpak.clients u' = Flatpak.clients u
     ∨ ∃ cd, Flatpak.clients u !! client_index d = Some cd
             ∧ Flatpak.clients u'
               = <[client_index d := Flatpak.set_cd_access_data cd (Some d)]>
                   (Flatpak.clients u)).

(** The cache tables of all clients are the same in [u] and [u']. *)
Definition same_caches (u u' : Flatpak.userdata) : Prop :=
  ∀ k, Flatpak.cd_cached <$> Flatpak.clients u' !! k
       = Flatpak.cd_cached <$> Flatpak.clients u !! k.

(** The reading of C8 on module-flatpak.c. *)
Definition flatpak_default_policy_denies_record : Prop :=
  ∀ env c d u cd,
    Flatpak.policies u = Flatpak.policies Flatpak.pa__init →
    Flatpak.default_policy u = Flatpak.default_policy Flatpak.pa__init →
    Flatpak.clients u !! client_index d = Some cd →
    Flatpak.cd_policy cd = Flatpak.default_policy u →
    hook d = PA_ACCESS_HOOK_CONNECT_RECORD →
    Flatpak.check_access env c d u = Some (PA_HOOK_STOP, u).

(** The state [pa__init] of module-flatpak.c has reached when its first
    policy is complete. *)
Definition flatpak_init_first : Flatpak.userdata :=
  Flatpak.set_default_policy
    (foldl (Flatpak.set_rule 0)
       (Flatpak.UserData
          (IdxSet (<[0%Z := Flatpak.AccessPolicy 0
                       (replicate PA_ACCESS_HOOK_MAX (Some Flatpak.Rule_block))]> ∅)
                  1)
          0 0 (Connection [] [] []) ∅)
       Flatpak.default_policy_rules)
    0.

(** A state of module-access.c as its callbacks keep it: the policies of
    [pa__init], every client bound to the default policy. *)
Definition access_state_ok (u : Access.userdata) : Prop :=
  Access.policies u = Access.policies Access.pa__init
  ∧ ∀ k cd, Access.clients u !! k = Some cd →
            Access.cd_policy cd = Access.default_policy Access.pa__init.

(** A state of module-flatpak.c as its callbacks keep it: the policies of
    [pa__init], every client bound to one of the two and with a cache table
    of [PA_ACCESS_HOOK_MAX] slots. *)
Definition flatpak_state_ok (u : Flatpak.userdata) : Prop :=
  Flatpak.policies u = Flatpak.policies Flatpak.pa__init
  ∧ ∀ k cd, Flatpak.clients u !! k = Some cd →
            (Flatpak.cd_policy cd = Flatpak.default_policy Flatpak.pa__init
             ∨ Flatpak.cd_policy cd = Flatpak.portal_policy Flatpak.pa__init)
            ∧ length (Flatpak.cd_cached cd) = PA_ACCESS_HOOK_MAX.

End Statements.

(** Reading and replacing the seen list of a known client. *)
Definition access_seen_of (u : Access.userdata) (k : Z) : option (list event_item) :=
  Access.cd_events <$> Access.clients u !! k.

Definition access_with_seen (u : Access.userdata) (k : Z) (l : list event_item)
  : Access.userdata :=
  match Access.clients u !! k with
  | Some cd => Access.store_client u k (Access.set_cd_events cd l)
  | None => u
  end.

Definition flatpak_seen_of (u : Flatpak.userdata) (k : Z) : option (list event_item) :=
  Flatpak.cd_events <$> Flatpak.clients u !! k.

Definition flatpak_with_seen (u : Flatpak.userdata) (k : Z) (l : list event_item)
  : Flatpak.userdata :=
  match Flatpak.clients u !! k with
  | Some cd => Flatpak.store_client u k (Flatpak.set_cd_events cd l)
  | None => u
  end.

(** A table after a sequence of assignments [t[key b] = val b]. *)
Section TableAssignments.
Context {A B : Type} (key : B → nat) (val : B → A).

Definition assign_all (l : list A) (bs : list B) : list A :=
  foldl (λ t b, <[key b := val b]> t) l bs.
End TableAssignments.

Arguments assign_all : simpl never.

(** ** Scenarios on the concrete numbering *)

(** A control-group file of a Flatpak application. *)
Definition flatpak_cgroup : string :=
  let nl := String "010"%char EmptyString in
  ("12:pids:/user.slice/user-1000.slice" ++ nl
   ++ "1:name=systemd:/user.slice/user-1000.slice/user@1000.service/flatpak-org.gnome.Maps-4242.scope"
   ++ nl ++ "0::/user.slice" ++ nl)%string.

Definition response_signal (args : list DBusValue) : DBusMessage :=
  Message DBUS_MESSAGE_TYPE_SIGNAL "" "/org/freedesktop/portal/desktop/request/1"
          "org.freedesktop.portal.Request" "Response" args.

(** Client 5, bound to the portal policy, asks to play. *)
Definition host0 : pa_core := Core ∅ ∅.

Definition client5 : pa_client := Client 5 true 4242 "application.name = Maps".

Definition portal_client_state : Flatpak.userdata :=
  let u := Flatpak.pa__init (K := abi0) in
  Flatpak.client_data_new (K := abi0) u 5 (Flatpak.portal_policy u) 4242.

Definition env_accept : bus_env :=
  BusEnv true true
    (Some (Message DBUS_MESSAGE_TYPE_METHOD_RETURN "" "" "" ""
             [DBUS_TYPE_OBJECT_PATH "/org/freedesktop/portal/desktop/request/1"]))
    false.

Definition play_request : pa_access_data :=
  AccessData (PA_ACCESS_HOOK_CONNECT_PLAYBACK (pulse_abi := abi0)) 5 0 0 1.

Definition record_request : pa_access_data :=
  AccessData (PA_ACCESS_HOOK_CONNECT_RECORD (pulse_abi := abi0)) 5 0 0 2.

(** The state the first request leaves behind (CANCEL was returned). *)
Definition pending_state : Flatpak.userdata :=
  match Flatpak.check_access (K := abi0) env_accept host0 play_request
          portal_client_state with
  | Some (_, u) => u
  | None => portal_client_state
  end.

(** Client 5 as [client_put_cb] registers it, on the default policy. *)
Definition default_client_state : Flatpak.userdata :=
  Flatpak.client_put_cb (K := abi0) client5 (Flatpak.pa__init (K := abi0)).

(** A subscription event for client 5. *)
Definition event_for_client5 (type facility oidx : Z) : pa_access_data :=
  AccessData (PA_ACCESS_HOOK_FILTER_SUBSCRIBE_EVENT (pulse_abi := abi0)) 5 oidx
    (Z.lor type facility) 0.


(** Client 5 has connected and was sent NEW for source 2 twice. *)
Definition twice_told_state : Flatpak.userdata :=
  match Flatpak.run_filter (K := abi0)
          [ (env_accept, host0, event_for_client5 0 1 2);
            (env_accept, host0, event_for_client5 0 1 2) ]
          default_client_state with
  | Some (_, u) => u
  | None => default_client_state
  end.

(** ** The states module-flatpak.c reaches *)

Section Reachable.
Context `{K : pulse_abi}.

(** module-flatpak.c at work: from the state [pa__init] leaves, the host
    runs the callbacks the module connected, in any order and with any
    arguments; a client is put under an index that is not in use, as the
    host allocates them. The bus runs [portal_response] on a message only
    for a filter that is registered. [timeout_cb] does not run: the timer
    of a client entry is created disabled ([PA_USEC_INVALID]) and nothing
    arms it. *)
Inductive flatpak_reachable : Flatpak.userdata → Prop :=
  | flatpak_reach_init : flatpak_reachable Flatpak.pa__init
  | flatpak_reach_put cl u :
      flatpak_reachable u → Flatpak.clients u !! cl_index cl = None →
      flatpak_reachable (Flatpak.client_put_cb cl u)
  | flatpak_reach_auth cl u :
      flatpak_reachable u → flatpak_reachable (Flatpak.client_auth_cb cl u)
  | flatpak_reach_proplist cl u :
      flatpak_reachable u →
      flatpak_reachable (Flatpak.client_proplist_changed_cb cl u)
  | flatpak_reach_unlink cl u :
      flatpak_reachable u → flatpak_reachable (Flatpak.client_unlink_cb cl u)
  | flatpak_reach_hook i env c d u r u' :
      flatpak_reachable u → Flatpak.access_hook_cb i env c d u = Some (r, u') →
      flatpak_reachable u'
  | flatpak_reach_response msg k u res u' fin :
      flatpak_reachable u → k ∈ conn_filters (Flatpak.connection u) →
      Flatpak.portal_response msg k u = Some (res, u', fin) →
      flatpak_reachable u'.

(** The portal has not been used in [u]: the policies are those of
    [pa__init], nothing was sent or registered on the bus, and every client
    is bound to the first policy, with no slot of its cache checked and no
    request pending. *)
Definition portal_unused (u : Flatpak.userdata) : Prop :=
  Flatpak.policies u = Flatpak.policies Flatpak.pa__init
  ∧ Flatpak.default_policy u = Flatpak.default_policy Flatpak.pa__init
  ∧ Flatpak.portal_policy u = Flatpak.portal_policy Flatpak.pa__init
  ∧ Flatpak.connection u = Connection [] [] []
  ∧ ∀ k cd, Flatpak.clients u !! k = Some cd →
            Flatpak.cd_policy cd = Flatpak.default_policy Flatpak.pa__init
            ∧ Flatpak.cd_cached cd
              = replicate PA_ACCESS_HOOK_MAX (Flatpak.AsyncCache false false)
            ∧ Flatpak.cd_access_data cd = None.
End Reachable.

(** * Properties *)

(** ** The concrete numbering is well formed *)

Lemma abi0_ok : pulse_abi_ok abi0.
Proof.
  split; apply (bool_decide_unpack _); vm_compute; exact I.
Qed.

(** ** Tables written by a sequence of assignments *)

Section Tables.
Context {A B : Type} (key : B → nat) (val : B → A).

Lemma assign_all_cons l b bs :
  assign_all key val l (b :: bs) = assign_all key val (<[key b := val b]> l) bs.
Proof. reflexivity. Qed.

Lemma assign_all_length l bs : length (assign_all key val l bs) = length l.
Proof.
  revert l. induction bs as [|b bs IH]; intros l; [done|].
  rewrite assign_all_cons, IH. apply length_insert.
Qed.

Lemma assign_all_untouched l bs k :
  k ∉ key <$> bs → assign_all key val l bs !! k = l !! k.
Proof.
  revert l. induction bs as [|b bs IH]; intros l Hk; [done|].
  rewrite fmap_cons in Hk. apply not_elem_of_cons in Hk as [Hne Hk].
  rewrite assign_all_cons, IH by done.
  by apply list_lookup_insert_ne.
Qed.

Lemma assign_all_assigned l bs b :
  NoDup (key <$> bs) → b ∈ bs → key b < length l →
  assign_all key val l bs !! key b = Some (val b).
Proof.
  revert l. induction bs as [|b0 bs IH]; intros l Hnd Hin Hlt.
  { by apply elem_of_nil in Hin. }
  rewrite fmap_cons in Hnd. apply NoDup_cons in Hnd as [Hnotin Hnd].
  rewrite assign_all_cons.
  apply elem_of_cons in Hin as [->|Hin].
  - rewrite assign_all_untouched by done.
    by apply list_lookup_insert_eq.
  - apply IH; [done|done|]. by rewrite length_insert.
Qed.
End Tables.

(** ** Consequences of a well-formed numbering *)

Ltac list_position x l :=
  lazymatch l with
  | x :: _ => constr:(0)
  | _ :: ?l' => let n := list_position x l' in constr:(S n)
  end.

Section AbiFacts.
Context `{K : pulse_abi} (Hok : pulse_abi_ok K).

Lemma named_hooks_position i j x y :
  named_hooks !! i = Some x → named_hooks !! j = Some y → x = y → i = j.
Proof.
  intros Hi Hj ->. eapply NoDup_lookup; eauto using hooks_distinct.
Qed.

Lemma named_hook_below_max h : h ∈ named_hooks → h < PA_ACCESS_HOOK_MAX.
Proof.
  intros Hin. pose proof (hooks_below_max K Hok) as HF.
  rewrite Forall_forall in HF. by apply HF.
Qed.

Lemma named_facility_in_mask f :
  f ∈ named_facilities → (0 ≤ f ≤ PA_SUBSCRIPTION_EVENT_FACILITY_MASK)%Z.
Proof.
  intros Hin. pose proof (facilities_in_mask K Hok) as HF.
  rewrite Forall_forall in HF. by apply HF.
Qed.

Lemma event_types_neq :
  PA_SUBSCRIPTION_EVENT_REMOVE ≠ PA_SUBSCRIPTION_EVENT_CHANGE
  ∧ PA_SUBSCRIPTION_EVENT_REMOVE ≠ PA_SUBSCRIPTION_EVENT_NEW
  ∧ PA_SUBSCRIPTION_EVENT_CHANGE ≠ PA_SUBSCRIPTION_EVENT_NEW.
Proof.
  pose proof (event_types_distinct K Hok) as Hnd. unfold named_event_types in Hnd.
  rewrite !NoDup_cons, !not_elem_of_cons in Hnd.
  destruct Hnd as ((? & ? & _) & (? & _) & _). auto.
Qed.
End AbiFacts.

(** Proves [x ≠ y] for two hooks named by the modules. *)
Ltac hook_neq Hok :=
  lazymatch goal with
  | |- ?x ≠ ?y =>
      let l := eval unfold named_hooks in named_hooks in
      let i := list_position x l in
      let j := list_position y l in
      let E := fresh "E" in
      intros E;
      pose proof (named_hooks_position Hok i j x y eq_refl eq_refl E);
      discriminate
  end.

(** Proves [x ∈ named_hooks] for a hook named by the modules. *)
Ltac hook_named :=
  unfold named_hooks; rewrite !elem_of_cons; tauto.

Section OwnerCheck.
Context `{K : pulse_abi}.

Lemma rule_check_owner_ok_iff c d :
  rule_check_owner c d = PA_HOOK_OK ↔ owner_index c d = client_index d.
Proof.
  unfold rule_check_owner.
  destruct (Z.eqb_spec (owner_index c d) (client_index d)); split; congruence.
Qed.

Lemma owner_groups_disjoint (Hok : pulse_abi_ok K) h :
  (h ∈ sink_input_hooks → h ∉ client_hooks)
  ∧ (h ∈ source_output_hooks → (h ∉ client_hooks) ∧ (h ∉ sink_input_hooks)).
Proof.
  pose proof (hooks_distinct K Hok) as Hnd.
  change named_hooks with
    (take 10 named_hooks
     ++ (client_hooks ++ (sink_input_hooks ++ source_output_hooks))
     ++ [PA_ACCESS_HOOK_FILTER_SUBSCRIBE_EVENT]) in Hnd.
  apply NoDup_app in Hnd as (_ & _ & Hnd).
  apply NoDup_app in Hnd as (Hnd & _ & _).
  apply NoDup_app in Hnd as (_ & Hc & Hnd).
  apply NoDup_app in Hnd as (_ & Hs & _).
  split.
  - intros Hin Hc'. apply (Hc h Hc'). apply elem_of_app. by left.
  - intros Hin. split.
    + intros Hc'. apply (Hc h Hc'). apply elem_of_app. by right.
    + intros Hs'. by apply (Hs h Hs').
Qed.

Lemma nobody_owns_invalid (Hok : pulse_abi_ok K) c d :
  nobody_owns c d → owner_index c d = PA_INVALID_INDEX.
Proof.
  destruct (owner_groups_disjoint Hok (hook d)) as [Hsi Hso].
  unfold nobody_owns, owner_index.
  intros [Hout | [[Hin Hnone] | [Hin Hnone]]].
  - rewrite !not_elem_of_app in Hout. destruct Hout as (H1 & H2 & H3).
    by rewrite !bool_decide_eq_false_2.
  - rewrite (bool_decide_eq_false_2 _ (Hsi Hin)), (bool_decide_eq_true_2 _ Hin).
    destruct (sink_inputs c !! object_index d) as [si|]; [|done].
    by rewrite (Hnone si eq_refl).
  - destruct (Hso Hin) as [H1 H2].
    rewrite (bool_decide_eq_false_2 _ H1), (bool_decide_eq_false_2 _ H2),
      (bool_decide_eq_true_2 _ Hin).
    destruct (source_outputs c !! object_index d) as [so|]; [|done].
    by rewrite (Hnone so eq_refl).
Qed.

(** C10. The owner check answers OK exactly when the owner index it
    computed equals the request's client index. When nobody owns the
    target (a hook outside the client, sink-input and source-output
    groups, or a stream that is absent or has no client) that index is
    [PA_INVALID_INDEX], so a request whose client index is
    [PA_INVALID_INDEX] is answered OK. *)
Theorem owner_check_grants_invalid_index (Hok : pulse_abi_ok K) c d :
  (rule_check_owner c d = PA_HOOK_OK ↔ owner_index c d = client_index d)
  ∧ (nobody_owns c d →
       owner_index c d = PA_INVALID_INDEX
       ∧ (client_index d = PA_INVALID_INDEX →
            rule_check_owner c d = PA_HOOK_OK)).
Proof.
  split; [apply rule_check_owner_ok_iff|].
  intros Hnobody. pose proof (nobody_owns_invalid Hok c d Hnobody) as Hidx.
  split; [done|]. intros Hcl. apply rule_check_owner_ok_iff. congruence.
Qed.
End OwnerCheck.

(** C10 at work: hook STAT (outside the three groups) and sink input 7,
    which is not registered, both asked by client index
    [PA_INVALID_INDEX]. *)
Lemma owner_check_grants_invalid_index_witness :
  let c := Core ∅ ∅ in
  let d1 := AccessData (PA_ACCESS_HOOK_STAT (pulse_abi := abi0)) 4294967295 3 0 0 in
  let d2 := AccessData (PA_ACCESS_HOOK_KILL_SINK_INPUT (pulse_abi := abi0)) 4294967295 7 0 0 in
  rule_check_owner (K := abi0) c d1 = PA_HOOK_OK
  ∧ rule_check_owner (K := abi0) c d2 = PA_HOOK_OK.
Proof.
  intros c d1 d2. split.
  - apply (owner_check_grants_invalid_index (K := abi0) abi0_ok c d1).
    + left. apply (bool_decide_unpack _). vm_compute. exact I.
    + reflexivity.
  - apply (owner_check_grants_invalid_index (K := abi0) abi0_ok c d2).
    + right. left. split; [apply (bool_decide_unpack _); vm_compute; exact I|].
      intros si Hsi. discriminate Hsi.
    + reflexivity.
Defined.

(** ** Unknown clients *)

(** C9. A request whose [client_index] has no client entry is answered
    STOP by the callback of every access hook, the event filter included,
    and the broker state is left as it was; in both modules. *)
Theorem unknown_client_is_stopped `{K : pulse_abi} :
  (∀ i c d u,
     Access.clients u !! client_index d = None →
     Access.access_hook_cb i c d u = Some (PA_HOOK_STOP, u))
  ∧ (∀ i env c d u,
       Flatpak.clients u !! client_index d = None →
       Flatpak.access_hook_cb i env c d u = Some (PA_HOOK_STOP, u)).
Proof.
  split.
  - intros i c d u Hnone. unfold Access.access_hook_cb.
    destruct (i =? PA_ACCESS_HOOK_FILTER_SUBSCRIBE_EVENT).
    + unfold Access.filter_event, Access.client_data_get. by rewrite Hnone.
    + unfold Access.check_access, Access.client_data_get. by rewrite Hnone.
  - intros i env c d u Hnone. unfold Flatpak.access_hook_cb.
    destruct (i =? PA_ACCESS_HOOK_FILTER_SUBSCRIBE_EVENT).
    + unfold Flatpak.filter_event, Flatpak.client_data_get. by rewrite Hnone.
    + unfold Flatpak.check_access, Flatpak.client_data_get. by rewrite Hnone.
Qed.

(** C9 at work: client 99 asks GET_SINK_INFO of object 0 right after
    [pa__init], when no client is registered. *)
Lemma unknown_client_is_stopped_witness :
  let d := AccessData (PA_ACCESS_HOOK_GET_SINK_INFO (pulse_abi := abi0)) 99 0 0 0 in
  let env := BusEnv true true None false in
  Access.clients (Access.pa__init (K := abi0)) !! client_index d = None
  ∧ Access.access_hook_cb (K := abi0) (hook d) (Core ∅ ∅) d
      (Access.pa__init (K := abi0))
    = Some (PA_HOOK_STOP, Access.pa__init (K := abi0))
  ∧ Flatpak.access_hook_cb (K := abi0) (hook d) env (Core ∅ ∅) d
      (Flatpak.pa__init (K := abi0))
    = Some (PA_HOOK_STOP, Flatpak.pa__init (K := abi0)).
Proof.
  intros d env. split; [reflexivity|]. split.
  - apply (proj1 (unknown_client_is_stopped (K := abi0))). reflexivity.
  - apply (proj2 (unknown_client_is_stopped (K := abi0))). reflexivity.
Defined.

(** ** Policy selection in module-flatpak.c *)

Lemma find_policy_for_client_is_default `{K : pulse_abi} u cl :
  Flatpak.find_policy_for_client u cl = Flatpak.default_policy u.
Proof. reflexivity. Qed.

(** C1, the code at a confined client: client 5 has valid credentials with
    pid 4242, and [/proc/4242/cgroup] names a Flatpak scope. The detector
    classifies it as confined and the statements after the first [return]
    would pick the portal policy, yet [find_policy_for_client] answers the
    default policy, which is another handle. *)
Theorem find_policy_for_confined_client_is_default :
  let cl := Client 5 true 4242 "application.name = Maps" in
  let proc_cgroup := λ pid : Z, if (pid =? 4242)%Z then Some flatpak_cgroup else None in
  let u := Flatpak.pa__init (K := abi0) in
  Flatpak.client_is_sandboxed proc_cgroup cl = true
  ∧ Flatpak.find_policy_for_client_after_return proc_cgroup u cl = Flatpak.portal_policy u
  ∧ Flatpak.find_policy_for_client u cl = Flatpak.default_policy u
  ∧ Flatpak.find_policy_for_client u cl ≠ Flatpak.portal_policy u.
Proof.
  intros cl proc_cgroup u. repeat split; try (vm_compute; reflexivity).
  vm_compute. discriminate.
Qed.

(** ** The portal arbiter *)

Lemma portal_response_handled msg k u cd d :
  Flatpak.clients u !! k = Some cd →
  Flatpak.cd_access_data cd = Some d →
  hook d < length (Flatpak.cd_cached cd) →
  dbus_message_is_signal msg "org.freedesktop.portal.Request" "Response" = true →
  Flatpak.portal_response msg k u
  = Some (DBUS_HANDLER_RESULT_HANDLED,
          Flatpak.store_client
            (Flatpak.set_connection u
               (dbus_connection_remove_filter (Flatpak.connection u) k)) k
            (Flatpak.set_cd_cached cd
               (<[hook d := Flatpak.AsyncCache true
                    (bool_decide (dbus_message_get_args_uint32 msg = Some 0%Z))]>
                  (Flatpak.cd_cached cd))),
          [(d, bool_decide (dbus_message_get_args_uint32 msg = Some 0%Z))]).
Proof.
  intros Hcd Hd Hlt Hsig. unfold Flatpak.portal_response, Flatpak.client_data_get.
  rewrite Hcd. simpl. rewrite Hsig, Hd. simpl.
  rewrite decide_True by done.
  assert ((if (match dbus_message_get_args_uint32 msg with
               | Some v => v | None => 2 end =? 0)%Z then true else false)
          = bool_decide (dbus_message_get_args_uint32 msg = Some 0%Z)) as ->; [|done].
  destruct (dbus_message_get_args_uint32 msg) as [v|].
  - destruct (Z.eqb_spec v 0) as [->|Hne]; symmetry.
    + by apply bool_decide_eq_true_2.
    + apply bool_decide_eq_false_2. congruence.
  - symmetry. by apply bool_decide_eq_false_2.
Qed.

(** C7. A Response signal delivered to the filter of a client with a
    pending request [d] is handled: the decision is "granted" exactly when
    the first argument parses as the unsigned code 0 (any other code, and a
    message whose first argument is no unsigned code, give "denied"); the
    decision is stored, checked, in the client's cache slot of [d]'s hook,
    and [async_finish_cb] is called once, on [d], with that decision. *)
Theorem portal_response_decides msg k u cd d :
  Flatpak.clients u !! k = Some cd →
  Flatpak.cd_access_data cd = Some d →
  hook d < length (Flatpak.cd_cached cd) →
  dbus_message_is_signal msg "org.freedesktop.portal.Request" "Response" = true →
  let g := bool_decide (dbus_message_get_args_uint32 msg = Some 0%Z) in
  ∃ u' cd',
    Flatpak.portal_response msg k u
    = Some (DBUS_HANDLER_RESULT_HANDLED, u', [(d, g)])
    ∧ Flatpak.clients u' !! k = Some cd'
    ∧ Flatpak.cd_cached cd' !! hook d = Some (Flatpak.AsyncCache true g).
Proof.
  intros Hcd Hd Hlt Hsig g.
  eexists _, _. split; [by apply portal_response_handled|].
  split.
  - unfold Flatpak.store_client. simpl. apply lookup_insert_eq.
  - simpl. by apply list_lookup_insert_eq.
Qed.

Example play_request_is_deferred :
  Flatpak.check_access (K := abi0) env_accept host0 play_request portal_client_state
  = Some (PA_HOOK_CANCEL, pending_state)
  ∧ Flatpak.cd_access_data <$> Flatpak.clients pending_state !! 5%Z
    = Some (Some play_request)
  ∧ conn_filters (Flatpak.connection pending_state) = [5%Z]
  ∧ length (conn_sent (Flatpak.connection pending_state)) = 1.
Proof. vm_compute. auto. Qed.

(** C7 at work: the portal answers the pending play request with code 0,
    and a second time round with a string where the code should be. *)
Lemma portal_response_decides_witness :
  (∃ u' cd',
     Flatpak.portal_response (response_signal [DBUS_TYPE_UINT32 0]) 5 pending_state
     = Some (DBUS_HANDLER_RESULT_HANDLED, u', [(play_request, true)])
     ∧ Flatpak.clients u' !! 5%Z = Some cd'
     ∧ Flatpak.cd_cached cd' !! hook play_request
       = Some (Flatpak.AsyncCache true true))
  ∧ (∃ u' cd',
       Flatpak.portal_response (response_signal [DBUS_TYPE_STRING "yes"]) 5 pending_state
       = Some (DBUS_HANDLER_RESULT_HANDLED, u', [(play_request, false)])
       ∧ Flatpak.clients u' !! 5%Z = Some cd'
       ∧ Flatpak.cd_cached cd' !! hook play_request
         = Some (Flatpak.AsyncCache true false)).
Proof.
  split.
  - apply (portal_response_decides (response_signal [DBUS_TYPE_UINT32 0]) 5
             pending_state
             (Flatpak.set_cd_access_data
                (Flatpak.ClientData 5 1 4242
                   (replicate 24 (Flatpak.AsyncCache false false)) None [])
                (Some play_request))
             play_request).
    + reflexivity.
    + reflexivity.
    + vm_compute. lia.
    + reflexivity.
  - apply (portal_response_decides (response_signal [DBUS_TYPE_STRING "yes"]) 5
             pending_state
             (Flatpak.set_cd_access_data
                (Flatpak.ClientData 5 1 4242
                   (replicate 24 (Flatpak.AsyncCache false false)) None [])
                (Some play_request))
             play_request).
    + reflexivity.
    + reflexivity.
    + vm_compute. lia.
    + reflexivity.
Defined.

Section PortalCache.
Context `{K : pulse_abi}.




End PortalCache.

(** *** Client unlink *)

Lemma client_unlink_keeps_connection cl u :
  Flatpak.connection (Flatpak.client_unlink_cb cl u) = Flatpak.connection u.
Proof. reflexivity. Qed.

(** ** The built-in policies *)

Section AccessInit.
Context `{K : pulse_abi}.

Lemma access_foldl_set_rule ap u rules :
  let u' := foldl (Access.set_rule ap) u rules in
  Access.default_policy u' = Access.default_policy u
  ∧ Access.clients u' = Access.clients u
  ∧ idx_current (Access.policies u') = idx_current (Access.policies u)
  ∧ idx_entries (Access.policies u') !! ap
    = (λ p, Access.AccessPolicy (Access.ap_index p)
              (assign_all fst (λ hr, Some hr.2) (Access.ap_rule p) rules))
      <$> idx_entries (Access.policies u) !! ap.
Proof.
  revert u. induction rules as [|hr rules IH]; intros u; simpl.
  - repeat split; try done.
    destruct (idx_entries (Access.policies u) !! ap) as [[]|]; done.
  - destruct (IH (Access.set_rule ap u hr)) as (H1 & H2 & H3 & H4).
    repeat split; try done.
    rewrite H4. simpl. rewrite lookup_alter_eq.
    destruct (idx_entries (Access.policies u) !! ap) as [[]|]; done.
Qed.

Lemma access_init_unfold :
  Access.pa__init
  = Access.set_default_policy
      (foldl (Access.set_rule 0)
         (Access.UserData
            (IdxSet (<[0%Z := Access.AccessPolicy 0
                         (replicate PA_ACCESS_HOOK_MAX (Some Access.Rule_block))]> ∅)
                    1)
            0 ∅)
         Access.default_policy_rules)
      0.
Proof. reflexivity. Qed.

Lemma access_init_default_policy :
  Access.default_policy Access.pa__init = 0%Z
  ∧ idx_entries (Access.policies Access.pa__init) !! 0%Z
    = Some (Access.AccessPolicy 0
              (assign_all fst (λ hr, Some hr.2)
                 (replicate PA_ACCESS_HOOK_MAX (Some Access.Rule_block))
                 Access.default_policy_rules)).
Proof.
  rewrite access_init_unfold.
  match goal with
  | |- context [foldl (Access.set_rule ?ap) ?u ?rules] =>
      destruct (access_foldl_set_rule ap u rules) as (H1 & H2 & H3 & H4)
  end.
  split; [reflexivity|]. etrans; [exact H4|].
  cbn [Access.policies idx_entries]. by rewrite lookup_insert_eq.
Qed.

Lemma access_connect_record_unassigned (Hok : pulse_abi_ok K) :
  PA_ACCESS_HOOK_CONNECT_RECORD ∉ Access.default_policy_rules.*1.
Proof.
  unfold Access.default_policy_rules. simpl.
  rewrite !not_elem_of_cons.
  repeat split; try (hook_neq Hok). apply not_elem_of_nil.
Qed.

Lemma access_default_policy_denies_record (Hok : pulse_abi_ok K) c d u cd :
  Access.policies u = Access.policies Access.pa__init →
  Access.default_policy u = Access.default_policy Access.pa__init →
  Access.clients u !! client_index d = Some cd →
  Access.cd_policy cd = Access.default_policy u →
  hook d = PA_ACCESS_HOOK_CONNECT_RECORD →
  Access.check_access c d u = Some (PA_HOOK_STOP, u).
Proof.
  intros Hpol Hdef Hcd Hbound Hhook.
  destruct access_init_default_policy as [Hd0 Hap].
  unfold Access.check_access, Access.client_data_get, pa_idxset_get_by_index.
  rewrite Hcd, Hbound, Hdef, Hd0, Hpol, Hap. simpl.
  rewrite Hhook, assign_all_untouched by (apply access_connect_record_unassigned, Hok).
  rewrite lookup_replicate_2; [done|].
  apply (named_hook_below_max Hok). hook_named.
Qed.
End AccessInit.

Section FlatpakInit.
Context `{K : pulse_abi}.

Lemma flatpak_foldl_set_rule ap u rules :
  let u' := foldl (Flatpak.set_rule ap) u rules in
  Flatpak.default_policy u' = Flatpak.default_policy u
  ∧ Flatpak.portal_policy u' = Flatpak.portal_policy u
  ∧ Flatpak.clients u' = Flatpak.clients u
  ∧ Flatpak.connection u' = Flatpak.connection u
  ∧ idx_current (Flatpak.policies u') = idx_current (Flatpak.policies u)
  ∧ (∀ j, j ≠ ap →
       idx_entries (Flatpak.policies u') !! j = idx_entries (Flatpak.policies u) !! j)
  ∧ idx_entries (Flatpak.policies u') !! ap
    = (λ p, Flatpak.AccessPolicy (Flatpak.ap_index p)
              (assign_all fst (λ hr, Some hr.2) (Flatpak.ap_rule p) rules))
      <$> idx_entries (Flatpak.policies u) !! ap.
Proof.
  revert u. induction rules as [|hr rules IH]; intros u; simpl.
  - repeat split; try done.
    destruct (idx_entries (Flatpak.policies u) !! ap) as [[]|]; done.
  - destruct (IH (Flatpak.set_rule ap u hr)) as (H1 & H2 & H3 & H4 & H5 & H6 & H7).
    repeat split; try done.
    + intros j Hj. rewrite H6 by done. simpl. by rewrite lookup_alter_ne.
    + rewrite H7. simpl. rewrite lookup_alter_eq.
      destruct (idx_entries (Flatpak.policies u) !! ap) as [[]|]; done.
Qed.

Lemma flatpak_init_unfold :
  Flatpak.pa__init
  = let u1 := flatpak_init_first in
    let ap := idx_current (Flatpak.policies u1) in
    Flatpak.set_portal_policy
      (foldl (Flatpak.set_rule ap)
         (Flatpak.set_policies u1
            (IdxSet (<[ap := Flatpak.AccessPolicy ap
                         (replicate PA_ACCESS_HOOK_MAX (Some Flatpak.Rule_block))]>
                       (idx_entries (Flatpak.policies u1)))
                    ((ap + 1) mod 2 ^ 32)%Z))
         Flatpak.portal_policy_rules)
      ap.
Proof.
  unfold Flatpak.pa__init, Flatpak.access_policy_new, pa_idxset_put,
    flatpak_init_first, pa_idxset_new.
  cbv beta iota zeta. reflexivity.
Qed.

Lemma flatpak_init_first_facts :
  idx_current (Flatpak.policies flatpak_init_first) = 1%Z
  ∧ idx_entries (Flatpak.policies flatpak_init_first) !! 0%Z
    = Some (Flatpak.AccessPolicy 0
              (assign_all fst (λ hr, Some hr.2)
                 (replicate PA_ACCESS_HOOK_MAX (Some Flatpak.Rule_block))
                 Flatpak.default_policy_rules)).
Proof.
  unfold flatpak_init_first.
  match goal with
  | |- context [foldl (Flatpak.set_rule 0) ?u ?rules] =>
      destruct (flatpak_foldl_set_rule 0 u rules) as (_ & _ & _ & _ & G5 & _ & G7)
  end.
  split.
  - etrans; [exact G5|]. reflexivity.
  - etrans; [exact G7|].
    cbn [Flatpak.policies idx_entries]. by rewrite lookup_insert_eq.
Qed.

Lemma flatpak_init_policies :
  Flatpak.default_policy Flatpak.pa__init = 0%Z
  ∧ Flatpak.portal_policy Flatpak.pa__init = 1%Z
  ∧ idx_entries (Flatpak.policies Flatpak.pa__init) !! 0%Z
    = Some (Flatpak.AccessPolicy 0
              (assign_all fst (λ hr, Some hr.2)
                 (replicate PA_ACCESS_HOOK_MAX (Some Flatpak.Rule_block))
                 Flatpak.default_policy_rules))
  ∧ idx_entries (Flatpak.policies Flatpak.pa__init) !! 1%Z
    = Some (Flatpak.AccessPolicy 1
              (assign_all fst (λ hr, Some hr.2)
                 (replicate PA_ACCESS_HOOK_MAX (Some Flatpak.Rule_block))
                 Flatpak.portal_policy_rules)).
Proof.
  rewrite flatpak_init_unfold. cbv zeta.
  destruct flatpak_init_first_facts as [Hcur Hfirst]. rewrite Hcur.
  match goal with
  | |- context [foldl (Flatpak.set_rule 1) ?u ?rules] =>
      destruct (flatpak_foldl_set_rule 1 u rules) as (H1 & _ & _ & _ & _ & H6 & H7)
  end.
  split; [exact H1|]. split; [reflexivity|]. split.
  - etrans; [apply (H6 0%Z); lia|].
    cbn [Flatpak.policies Flatpak.set_policies idx_entries].
    by rewrite lookup_insert_ne by lia.
  - etrans; [exact H7|].
    cbn [Flatpak.policies Flatpak.set_policies idx_entries].
    by rewrite lookup_insert_eq.
Qed.

Lemma flatpak_default_rules_keys (Hok : pulse_abi_ok K) :
  NoDup Flatpak.default_policy_rules.*1.
Proof.
  pose proof (hooks_distinct K Hok) as Hnd.
  change named_hooks with
    (Flatpak.default_policy_rules.*1 ++ [PA_ACCESS_HOOK_FILTER_SUBSCRIBE_EVENT])
    in Hnd.
  by apply NoDup_app in Hnd as (? & _ & _).
Qed.

Lemma flatpak_default_policy_allows_record (Hok : pulse_abi_ok K) env c d u cd :
  Flatpak.policies u = Flatpak.policies Flatpak.pa__init →
  Flatpak.default_policy u = Flatpak.default_policy Flatpak.pa__init →
  Flatpak.clients u !! client_index d = Some cd →
  Flatpak.cd_policy cd = Flatpak.default_policy u →
  hook d = PA_ACCESS_HOOK_CONNECT_RECORD →
  Flatpak.check_access env c d u = Some (PA_HOOK_OK, u).
Proof.
  intros Hpol Hdef Hcd Hbound Hhook.
  destruct flatpak_init_policies as (Hd0 & _ & Hap & _).
  unfold Flatpak.check_access, Flatpak.client_data_get, pa_idxset_get_by_index.
  rewrite Hcd, Hbound, Hdef, Hd0, Hpol, Hap. simpl.
  rewrite Hhook.
  pose proof (assign_all_assigned fst (λ hr, Some hr.2)
                (replicate PA_ACCESS_HOOK_MAX (Some Flatpak.Rule_block))
                Flatpak.default_policy_rules
                (PA_ACCESS_HOOK_CONNECT_RECORD, Flatpak.Rule_allow)) as E.
  cbn [fst snd] in E. rewrite E.
  - done.
  - by apply flatpak_default_rules_keys.
  - unfold Flatpak.default_policy_rules, Flatpak.allow_rules. simpl.
    rewrite !elem_of_cons. tauto.
  - rewrite length_replicate. simpl.
    apply (named_hook_below_max Hok). hook_named.
Qed.
End FlatpakInit.

(** C8 fails on module-flatpak.c: client 5, bound to the default policy by
    [client_put_cb], asks CONNECT_RECORD and is answered OK. *)
Lemma flatpak_default_policy_grants_record :
  ¬ flatpak_default_policy_denies_record (K := abi0).
Proof.
  intros Hclaim.
  assert (Flatpak.check_access (K := abi0) env_accept host0 record_request
            default_client_state = Some (PA_HOOK_STOP, default_client_state)) as E.
  { apply (Hclaim env_accept host0 record_request default_client_state
             (Flatpak.ClientData 5 0 4242
                (replicate 24 (Flatpak.AsyncCache false false)) None []));
      vm_compute; reflexivity. }
  vm_compute in E. discriminate E.
Qed.

(** C8 as the code has it. In module-access.c the default policy leaves
    the CONNECT_RECORD slot at its deny disposition, and the request of a
    client bound to it is answered STOP. In module-flatpak.c [pa__init]
    sets that slot of the default policy to [rule_allow], and the request
    is answered OK. Neither changes the broker state. *)
Theorem default_policy_on_connect_record `{K : pulse_abi} (Hok : pulse_abi_ok K) :
  (∀ c d u cd,
     Access.policies u = Access.policies Access.pa__init →
     Access.default_policy u = Access.default_policy Access.pa__init →
     Access.clients u !! client_index d = Some cd →
     Access.cd_policy cd = Access.default_policy u →
     hook d = PA_ACCESS_HOOK_CONNECT_RECORD →
     Access.check_access c d u = Some (PA_HOOK_STOP, u))
  ∧ (∀ env c d u cd,
       Flatpak.policies u = Flatpak.policies Flatpak.pa__init →
       Flatpak.default_policy u = Flatpak.default_policy Flatpak.pa__init →
       Flatpak.clients u !! client_index d = Some cd →
       Flatpak.cd_policy cd = Flatpak.default_policy u →
       hook d = PA_ACCESS_HOOK_CONNECT_RECORD →
       Flatpak.check_access env c d u = Some (PA_HOOK_OK, u)).
Proof.
  split.
  - intros. by eapply access_default_policy_denies_record.
  - intros. by eapply flatpak_default_policy_allows_record.
Qed.

(** The amended C8 at work: client 5 put into either broker asks
    CONNECT_RECORD. *)
Lemma default_policy_on_connect_record_witness :
  let ua := Access.client_put_cb client5 (Access.pa__init (K := abi0)) in
  Access.check_access (K := abi0) host0 record_request ua = Some (PA_HOOK_STOP, ua)
  ∧ Flatpak.check_access (K := abi0) env_accept host0 record_request
      default_client_state
    = Some (PA_HOOK_OK, default_client_state).
Proof.
  intros ua. split.
  - apply (proj1 (default_policy_on_connect_record (K := abi0) abi0_ok)
             host0 record_request ua (Access.ClientData 5 0 []));
      vm_compute; reflexivity.
  - apply (proj2 (default_policy_on_connect_record (K := abi0) abi0_ok)
             env_accept host0 record_request default_client_state
             (Flatpak.ClientData 5 0 4242
                (replicate 24 (Flatpak.AsyncCache false false)) None []));
      vm_compute; reflexivity.
Defined.

(** ** The seen list *)

Lemma event_item_is_true facility oidx i :
  event_item_is facility oidx i = true ↔ i = EventItem facility oidx.
Proof.
  unfold event_item_is. destruct i as [f o]. simpl.
  rewrite andb_true_iff, !Z.eqb_eq. split.
  - by intros [-> ->].
  - by intros [= -> ->].
Qed.

Lemma find_event_None events facility oidx :
  find_event events facility oidx = None ↔ EventItem facility oidx ∉ events.
Proof.
  induction events as [|i rest IH]; simpl.
  - split; [intros _; apply not_elem_of_nil | done].
  - rewrite not_elem_of_cons.
    destruct (event_item_is facility oidx i) eqn:E.
    + apply event_item_is_true in E. split; [done|]. intros [Hne _]. by subst.
    + rewrite IH. split; [|tauto]. intros Hrest. split; [|done].
      intros Heq. symmetry in Heq. apply event_item_is_true in Heq. congruence.
Qed.

Lemma find_event_is_Some events facility oidx :
  is_Some (find_event events facility oidx) ↔ EventItem facility oidx ∈ events.
Proof.
  rewrite <- not_eq_None_Some, find_event_None.
  destruct (decide (EventItem facility oidx ∈ events)); tauto.
Qed.

Lemma llist_remove_found_split events facility oidx :
  EventItem facility oidx ∈ events →
  ∃ l1 l2,
    events = l1 ++ EventItem facility oidx :: l2
    ∧ (EventItem facility oidx ∉ l1)
    ∧ llist_remove_found events facility oidx = l1 ++ l2.
Proof.
  induction events as [|i rest IH]; intros Hin.
  - by apply elem_of_nil in Hin.
  - simpl. destruct (event_item_is facility oidx i) eqn:E.
    + apply event_item_is_true in E. subst i.
      exists [], rest. split; [done|]. split; [apply not_elem_of_nil|done].
    + assert (i ≠ EventItem facility oidx) as Hne.
      { intros Heq. apply event_item_is_true in Heq. congruence. }
      apply elem_of_cons in Hin as [Heq|Hin]; [by subst|].
      destruct (IH Hin) as (l1 & l2 & -> & Hnot & ->).
      exists (i :: l1), l2. split; [done|]. split; [|done].
      apply not_elem_of_cons. split; [done|done].
Qed.

(** ** The event filter against its table *)

Lemma Z_land_le_r (a b : Z) : (0 ≤ b → 0 ≤ Z.land a b ≤ b)%Z.
Proof.
  intros Hb. split; [apply Z.land_nonneg; by right|].
  assert (Z.ldiff (Z.land a b) b = 0%Z) as Hd.
  { apply Z.bits_inj'. intros n Hn.
    rewrite Z.ldiff_spec, Z.land_spec, Z.bits_0.
    destruct (Z.testbit a n), (Z.testbit b n); done. }
  apply Z.sub_nocarry_ldiff in Hd.
  assert (0 ≤ Z.ldiff b (Z.land a b))%Z by (apply Z.ldiff_nonneg; by left).
  lia.
Qed.

Section EventHook.
Context `{K : pulse_abi} (Hok : pulse_abi_ok K).

Lemma facility_mask_nonneg : (0 ≤ PA_SUBSCRIPTION_EVENT_FACILITY_MASK)%Z.
Proof.
  assert (PA_SUBSCRIPTION_EVENT_SINK ∈ named_facilities) as Hin
    by (unfold named_facilities; rewrite !elem_of_cons; tauto).
  apply (named_facility_in_mask Hok) in Hin. lia.
Qed.

Lemma event_facility_in_mask d :
  (0 ≤ event_facility d ≤ PA_SUBSCRIPTION_EVENT_FACILITY_MASK)%Z.
Proof. apply Z_land_le_r, facility_mask_nonneg. Qed.

Lemma event_hook_keys :
  NoDup ((λ fh : Z * nat, Z.to_nat fh.1) <$> event_hook_designators).
Proof.
  change ((λ fh : Z * nat, Z.to_nat fh.1) <$> event_hook_designators)
    with (Z.to_nat <$> named_facilities).
  apply NoDup_fmap_2_strong; [|apply (facilities_distinct K Hok)].
  intros x y Hx Hy Heq.
  apply (named_facility_in_mask Hok) in Hx, Hy. lia.
Qed.

Lemma event_hook_lookup f :
  (0 ≤ f ≤ PA_SUBSCRIPTION_EVENT_FACILITY_MASK)%Z →
  event_hook !! Z.to_nat f = Some (facility_get_info_hook f).
Proof.
  intros Hf.
  change event_hook with
    (assign_all (λ fh : Z * nat, Z.to_nat fh.1) snd
       (replicate (Z.to_nat (PA_SUBSCRIPTION_EVENT_FACILITY_MASK + 1)) 0)
       event_hook_designators).
  assert (∀ b : Z * nat, b ∈ event_hook_designators →
            assign_all (λ fh : Z * nat, Z.to_nat fh.1) snd
              (replicate (Z.to_nat (PA_SUBSCRIPTION_EVENT_FACILITY_MASK + 1)) 0)
              event_hook_designators !! Z.to_nat b.1 = Some b.2) as Hassigned.
  { intros b Hb.
    apply (assign_all_assigned (λ fh : Z * nat, Z.to_nat fh.1) snd);
      [apply event_hook_keys|done|].
    rewrite length_replicate.
    assert (b.1 ∈ named_facilities) as Hin.
    { change named_facilities with (event_hook_designators.*1).
      by apply list_elem_of_fmap_2. }
    apply (named_facility_in_mask Hok) in Hin. lia. }
  unfold facility_get_info_hook.
  repeat case_decide; subst;
    try (match goal with
         | |- _ !! Z.to_nat ?F = Some ?H =>
             apply (Hassigned (F, H));
             unfold event_hook_designators; rewrite !elem_of_cons; tauto
         end).
  rewrite assign_all_untouched.
  - apply lookup_replicate_2. lia.
  - change ((λ fh : Z * nat, Z.to_nat fh.1) <$> event_hook_designators)
      with (Z.to_nat <$> named_facilities).
    intros Hin. apply list_elem_of_fmap in Hin as (y & Heq & Hy).
    pose proof (named_facility_in_mask Hok y Hy) as Hyr.
    assert (f = y) as -> by lia.
    unfold named_facilities in Hy. rewrite !elem_of_cons in Hy.
    rewrite elem_of_nil in Hy. tauto.
Qed.

Lemma get_info_hook_not_filter f :
  facility_get_info_hook f ≠ 0 →
  facility_get_info_hook f ≠ PA_ACCESS_HOOK_FILTER_SUBSCRIBE_EVENT.
Proof.
  unfold facility_get_info_hook.
  repeat case_decide; intros Hnz; try (hook_neq Hok). done.
Qed.
End EventHook.

Section FilterTable.
Context `{K : pulse_abi} (Hok : pulse_abi_ok K).

Lemma access_filter_event_table c :
  event_filter_table (Access.filter_event c) (Access.check_access c)
    access_seen_of access_with_seen.
Proof.
  destruct (event_types_neq Hok) as (Hrc & Hrn & Hcn).
  intros d u l Hseen k p. subst k p. unfold access_seen_of in Hseen.
  destruct (Access.clients u !! client_index d) as [cd|] eqn:Hcd; [|done].
  injection Hseen as <-.
  unfold Access.filter_event, Access.client_data_get. rewrite Hcd. cbv zeta.
  change (Z.land (event d) PA_SUBSCRIPTION_EVENT_TYPE_MASK) with (event_type d).
  change (Z.land (event d) PA_SUBSCRIPTION_EVENT_FACILITY_MASK)
    with (event_facility d).
  assert (Access.filter_event_new c d u (event_facility d)
          = if decide (facility_get_info_hook (event_facility d) = 0)
            then Some (PA_HOOK_STOP, u)
            else
              '(r, u') ← Access.check_access c
                           (with_hook d (facility_get_info_hook (event_facility d))) u;
              if decide (r = PA_HOOK_OK) then
                l' ← access_seen_of u' (client_index d);
                Some (PA_HOOK_OK,
                      access_with_seen u' (client_index d) (pair_of d :: l'))
              else Some (PA_HOOK_STOP, u')) as Hnew.
  { unfold Access.filter_event_new.
    rewrite (event_hook_lookup Hok) by apply (event_facility_in_mask Hok).
    simpl. case_decide as Hz.
    - by rewrite Hz.
    - rewrite (proj2 (Nat.eqb_neq _ _) Hz). unfold Access.pa_hook_fire.
      rewrite (proj2 (Nat.eqb_neq _ _) (get_info_hook_not_filter Hok _ Hz)).
      destruct (Access.check_access c _ u) as [[r u']|]; [simpl|done].
      case_decide; [|done].
      unfold access_seen_of, access_with_seen, Access.client_data_get.
      destruct (Access.clients u' !! client_index d); done. }
  repeat split.
  - intros Hty Hin. rewrite Hty, Z.eqb_refl. unfold remove_event.
    destruct (find_event (Access.cd_events cd) (event_facility d) (object_index d))
      as [i|] eqn:Hfind; [|by apply find_event_None in Hfind].
    destruct (llist_remove_found_split _ _ _ Hin) as (l1 & l2 & Hl & Hnot & Hrm).
    exists l1, l2. split; [done|]. split; [done|].
    unfold access_with_seen. rewrite Hcd, Hrm. done.
  - intros Hty Hnotin. rewrite Hty, Z.eqb_refl. unfold remove_event.
    by rewrite (proj2 (find_event_None _ _ _) Hnotin).
  - intros Hty Hin. rewrite Hty, (proj2 (Z.eqb_neq _ _)) by done.
    rewrite Z.eqb_refl.
    apply find_event_is_Some in Hin as [i Hi]. by rewrite Hi.
  - intros Hcase. cbv zeta.
    match goal with
    | |- if _ then ?lhs = _ else _ =>
        assert (lhs = Access.filter_event_new c d u (event_facility d)) as ->
    end.
    { destruct Hcase as [Hty | [Hty Hnotin]]; rewrite Hty.
      - rewrite !(proj2 (Z.eqb_neq _ _)) by done. by rewrite Z.eqb_refl.
      - rewrite (proj2 (Z.eqb_neq _ _)) by done. rewrite Z.eqb_refl.
        by rewrite (proj2 (find_event_None _ _ _) Hnotin). }
    rewrite Hnew. by case_decide.
  - intros Hother. unfold named_event_types in Hother.
    rewrite !not_elem_of_cons in Hother. destruct Hother as (H1 & H2 & H3 & _).
    by rewrite !(proj2 (Z.eqb_neq _ _)) by done.
Qed.

Lemma flatpak_filter_event_table env c :
  event_filter_table (Flatpak.filter_event env c) (Flatpak.check_access env c)
    flatpak_seen_of flatpak_with_seen.
Proof.
  destruct (event_types_neq Hok) as (Hrc & Hrn & Hcn).
  intros d u l Hseen k p. subst k p. unfold flatpak_seen_of in Hseen.
  destruct (Flatpak.clients u !! client_index d) as [cd|] eqn:Hcd; [|done].
  injection Hseen as <-.
  unfold Flatpak.filter_event, Flatpak.client_data_get. rewrite Hcd. cbv zeta.
  change (Z.land (event d) PA_SUBSCRIPTION_EVENT_TYPE_MASK) with (event_type d).
  change (Z.land (event d) PA_SUBSCRIPTION_EVENT_FACILITY_MASK)
    with (event_facility d).
  assert (Flatpak.filter_event_new env c d u (event_facility d)
          = if decide (facility_get_info_hook (event_facility d) = 0)
            then Some (PA_HOOK_STOP, u)
            else
              '(r, u') ← Flatpak.check_access env c
                           (with_hook d (facility_get_info_hook (event_facility d))) u;
              if decide (r = PA_HOOK_OK) then
                l' ← flatpak_seen_of u' (client_index d);
                Some (PA_HOOK_OK,
                      flatpak_with_seen u' (client_index d) (pair_of d :: l'))
              else Some (PA_HOOK_STOP, u')) as Hnew.
  { unfold Flatpak.filter_event_new.
    rewrite (event_hook_lookup Hok) by apply (event_facility_in_mask Hok).
    simpl. case_decide as Hz.
    - by rewrite Hz.
    - rewrite (proj2 (Nat.eqb_neq _ _) Hz). unfold Flatpak.pa_hook_fire.
      rewrite (proj2 (Nat.eqb_neq _ _) (get_info_hook_not_filter Hok _ Hz)).
      destruct (Flatpak.check_access env c _ u) as [[r u']|]; [simpl|done].
      case_decide; [|done].
      unfold flatpak_seen_of, flatpak_with_seen, Flatpak.client_data_get.
      destruct (Flatpak.clients u' !! client_index d); done. }
  repeat split.
  - intros Hty Hin. rewrite Hty, Z.eqb_refl. unfold remove_event.
    destruct (find_event (Flatpak.cd_events cd) (event_facility d) (object_index d))
      as [i|] eqn:Hfind; [|by apply find_event_None in Hfind].
    destruct (llist_remove_found_split _ _ _ Hin) as (l1 & l2 & Hl & Hnot & Hrm).
    exists l1, l2. split; [done|]. split; [done|].
    unfold flatpak_with_seen. rewrite Hcd, Hrm. done.
  - intros Hty Hnotin. rewrite Hty, Z.eqb_refl. unfold remove_event.
    by rewrite (proj2 (find_event_None _ _ _) Hnotin).
  - intros Hty Hin. rewrite Hty, (proj2 (Z.eqb_neq _ _)) by done.
    rewrite Z.eqb_refl.
    apply find_event_is_Some in Hin as [i Hi]. by rewrite Hi.
  - intros Hcase. cbv zeta.
    match goal with
    | |- if _ then ?lhs = _ else _ =>
        assert (lhs = Flatpak.filter_event_new env c d u (event_facility d)) as ->
    end.
    { destruct Hcase as [Hty | [Hty Hnotin]]; rewrite Hty.
      - rewrite !(proj2 (Z.eqb_neq _ _)) by done. by rewrite Z.eqb_refl.
      - rewrite (proj2 (Z.eqb_neq _ _)) by done. rewrite Z.eqb_refl.
        by rewrite (proj2 (find_event_None _ _ _) Hnotin). }
    rewrite Hnew. by case_decide.
  - intros Hother. unfold named_event_types in Hother.
    rewrite !not_elem_of_cons in Hother. destruct Hother as (H1 & H2 & H3 & _).
    by rewrite !(proj2 (Z.eqb_neq _ _)) by done.
Qed.

End FilterTable.

(** ** The seen lists along a trace of filtered events *)




Section SeenTrace.
Context `{K : pulse_abi}.






End SeenTrace.

Section AccessSeen.
Context `{K : pulse_abi}.

Lemma access_check_access_state c d u r u' :
  Access.check_access c d u = Some (r, u') → u' = u.
Proof.
  unfold Access.check_access.
  destruct (Access.client_data_get u (client_index d)) as [cd|]; [|congruence].
  destruct (pa_idxset_get_by_index _ _) as [ap|]; [simpl|done].
  destruct (Access.ap_rule ap !! hook d) as [[rule|]|]; simpl; [|congruence|done].
  destruct rule; simpl; congruence.
Qed.




End AccessSeen.

Section FlatpakSeen.
Context `{K : pulse_abi}.

Lemma rule_check_portal_state env c d u r u' :
  Flatpak.rule_check_portal env c d u = Some (r, u') →
  only_pending_changed d u u'.
Proof.
  unfold Flatpak.rule_check_portal, Flatpak.client_data_get, only_pending_changed.
  destruct (Flatpak.clients u !! client_index d) as [cd|] eqn:Hcd; [simpl|done].
  destruct (Flatpak.cd_cached cd !! hook d) as [slot|]; [simpl|done].
  destruct (Flatpak.checked slot).
  { intros [= <- <-]. repeat split; by left. }
  destruct (env_new_method_call_ok env); simpl.
  2: { intros [= <- <-]. repeat split; right; eauto. }
  destruct (Flatpak.portal_device (hook d)) as [device|]; [simpl|done].
  destruct (env_append_args_ok env); simpl.
  2: { intros [= <- <-]. repeat split; right; eauto. }
  destruct (env_reply env) as [reply|].
  2: { intros [= <- <-]. repeat split; right; eauto. }
  destruct (dbus_message_get_args_object_path reply) as [handle|].
  2: { intros [= <- <-]. repeat split; right; eauto. }
  destruct (env_add_match_error env); intros [= <- <-];
    repeat split; right; eauto.
Qed.

Lemma flatpak_check_access_state env c d u r u' :
  Flatpak.check_access env c d u = Some (r, u') →
  only_pending_changed d u u'.
Proof.
  unfold Flatpak.check_access.
  destruct (Flatpak.client_data_get u (client_index d)) as [cd|].
  2: { intros [= <- <-]. repeat split; by left. }
  destruct (pa_idxset_get_by_index _ _) as [ap|]; [simpl|done].
  destruct (Flatpak.ap_rule ap !! hook d) as [[rule|]|]; simpl; [| |done].
  2: { intros [= <- <-]. repeat split; by left. }
  destruct rule; simpl;
    try (intros [= <- <-]; repeat split; by left).
  apply rule_check_portal_state.
Qed.

Lemma only_pending_changed_lookup d u u' k :
  only_pending_changed d u u' →
  match Flatpak.clients u !! k, Flatpak.clients u' !! k with
  | Some cd, Some cd' =>
      Flatpak.cd_events cd' = Flatpak.cd_events cd
      ∧ Flatpak.cd_cached cd' = Flatpak.cd_cached cd
      ∧ Flatpak.cd_policy cd' = Flatpak.cd_policy cd
  | None, None => True
  | _, _ => False
  end.
Proof.
  intros (_ & _ & _ & [-> | (cd & Hcd & ->)]).
  - by destruct (Flatpak.clients u !! k).
  - destruct (decide (k = client_index d)) as [->|Hk].
    + by rewrite Hcd, lookup_insert_eq.
    + rewrite lookup_insert_ne by done. by destruct (Flatpak.clients u !! k).
Qed.





End FlatpakSeen.

(** ** The filter and the engine return *)

Section TableValues.
Context {A B : Type} (key : B → nat) (val : B → A).

Lemma assign_all_lookup_inv l bs k v :
  assign_all key val l bs !! k = Some v →
  l !! k = Some v ∨ ∃ b, b ∈ bs ∧ key b = k ∧ val b = v.
Proof.
  revert l. induction bs as [|b bs IH]; intros l; [by left|].
  rewrite assign_all_cons. intros Hl. apply IH in Hl as [Hl|(b' & Hb' & Hk & Hv)].
  - apply list_lookup_insert_Some in Hl as [(Hk & Hv & _)|[_ Hl]]; [|by left].
    right. exists b. split; [by apply elem_of_cons; left|done].
  - right. exists b'. split; [by apply elem_of_cons; right|done].
Qed.
End TableValues.

Section AccessReturns.
Context `{K : pulse_abi} (Hok : pulse_abi_ok K).

Lemma access_check_access_returns c d u :
  access_state_ok u → hook d < PA_ACCESS_HOOK_MAX →
  ∃ r, Access.check_access c d u = Some (r, u).
Proof.
  intros [Hpol Hbound] Hlt.
  destruct access_init_default_policy as [Hd0 Hap].
  unfold Access.check_access, Access.client_data_get, pa_idxset_get_by_index.
  destruct (Access.clients u !! client_index d) as [cd|] eqn:Hcd; [|by eexists].
  rewrite (Hbound _ _ Hcd), Hd0, Hpol, Hap. simpl.
  destruct (assign_all fst (λ hr, Some hr.2)
              (replicate PA_ACCESS_HOOK_MAX (Some Access.Rule_block))
              Access.default_policy_rules !! hook d) as [slot|] eqn:Hslot.
  2: { apply lookup_ge_None in Hslot.
       rewrite assign_all_length, length_replicate in Hslot. lia. }
  simpl. destruct slot as [rule|]; [|by eexists].
  destruct rule; simpl; by eexists.
Qed.

Lemma access_filter_event_returns c d u :
  access_state_ok u →
  ∃ r u', Access.filter_event c d u = Some (r, u') ∧ access_state_ok u'.
Proof.
  intros Hu.
  assert (∀ cd l, Access.clients u !! client_index d = Some cd →
            access_state_ok
              (Access.store_client u (client_index d) (Access.set_cd_events cd l)))
    as Hstore.
  { intros cd l Hcd. destruct Hu as [Hpol Hbound]. split; [done|].
    intros k cd' Hk. unfold Access.store_client in Hk. simpl in Hk.
    destruct (decide (k = client_index d)) as [->|Hne].
    - rewrite lookup_insert_eq in Hk. injection Hk as <-. simpl. by eapply Hbound.
    - rewrite lookup_insert_ne in Hk by done. by eapply Hbound. }
  assert (∃ r u', Access.filter_event_new c d u (event_facility d) = Some (r, u')
                  ∧ access_state_ok u') as Hnew.
  { unfold Access.filter_event_new.
    rewrite (event_hook_lookup Hok) by apply (event_facility_in_mask Hok).
    simpl. destruct (Nat.eqb_spec (facility_get_info_hook (event_facility d)) 0)
      as [Hz|Hz]; [by eexists _, _|].
    unfold Access.pa_hook_fire.
    rewrite (proj2 (Nat.eqb_neq _ _) (get_info_hook_not_filter Hok _ Hz)).
    destruct (access_check_access_returns c
                (with_hook d (facility_get_info_hook (event_facility d))) u Hu)
      as [r Hr].
    { simpl. revert Hz. unfold facility_get_info_hook.
      repeat case_decide; intros Hz;
        try (apply (named_hook_below_max Hok); hook_named); done. }
    rewrite Hr. simpl. case_decide; [|by eexists _, _].
    unfold Access.client_data_get. simpl.
    destruct (Access.clients u !! client_index d) as [cd|] eqn:Hcd.
    - simpl. eexists _, _. split; [done|]. by apply Hstore.
    - unfold Access.check_access, Access.client_data_get in Hr. simpl in Hr.
      rewrite Hcd in Hr. congruence. }
  unfold Access.filter_event, Access.client_data_get.
  change (Z.land (event d) PA_SUBSCRIPTION_EVENT_FACILITY_MASK)
    with (event_facility d).
  destruct (Access.clients u !! client_index d) as [cd|] eqn:Hcd;
    [|by eexists _, _].
  cbv zeta. destruct (_ =? PA_SUBSCRIPTION_EVENT_REMOVE)%Z.
  { destruct (remove_event _ _ _) as [[] events]; eexists _, _; split; try done.
    by apply Hstore. }
  destruct (_ =? PA_SUBSCRIPTION_EVENT_CHANGE)%Z.
  { destruct (find_event _ _ _); [by eexists _, _|done]. }
  destruct (_ =? PA_SUBSCRIPTION_EVENT_NEW)%Z; [done|by eexists _, _].
Qed.

End AccessReturns.

Section FlatpakReturns.
Context `{K : pulse_abi} (Hok : pulse_abi_ok K).

Lemma portal_rules_devices :
  Forall (λ hr : nat * Flatpak.access_rule_t,
            hr.2 = Flatpak.Rule_check_portal → is_Some (Flatpak.portal_device hr.1))
         (Flatpak.default_policy_rules ++ Flatpak.portal_policy_rules).
Proof.
  unfold Flatpak.default_policy_rules, Flatpak.portal_policy_rules,
    Flatpak.allow_rules, Flatpak.owner_rules.
  repeat (apply Forall_app; split);
    repeat (apply Forall_cons_2 || apply Forall_nil_2);
    simpl; try discriminate; intros _; unfold Flatpak.portal_device.
  - destruct (_ =? PA_ACCESS_HOOK_CONNECT_RECORD); [done|].
    rewrite Nat.eqb_refl, orb_true_r. done.
  - destruct (_ =? PA_ACCESS_HOOK_CONNECT_RECORD); [done|].
    rewrite Nat.eqb_refl. done.
  - rewrite Nat.eqb_refl. done.
Qed.

Lemma flatpak_policy_slot p h :
  p = Flatpak.default_policy Flatpak.pa__init
  ∨ p = Flatpak.portal_policy Flatpak.pa__init →
  h < PA_ACCESS_HOOK_MAX →
  ∃ ap r,
    idx_entries (Flatpak.policies Flatpak.pa__init) !! p = Some ap
    ∧ Flatpak.ap_rule ap !! h = Some (Some r)
    ∧ (r = Flatpak.Rule_check_portal → is_Some (Flatpak.portal_device h)).
Proof.
  intros Hp Hh. destruct flatpak_init_policies as (Hd0 & Hp1 & Hap0 & Hap1).
  pose proof portal_rules_devices as Hdev. rewrite Forall_app in Hdev.
  destruct Hdev as [Hdev0 Hdev1]. rewrite Forall_forall in Hdev0, Hdev1.
  assert (∀ rules,
            (∀ hr, hr ∈ rules → hr.2 = Flatpak.Rule_check_portal →
                   is_Some (Flatpak.portal_device hr.1)) →
            ∃ r, assign_all fst (λ hr : nat * Flatpak.access_rule_t, Some hr.2)
                   (replicate PA_ACCESS_HOOK_MAX (Some Flatpak.Rule_block)) rules !! h
                 = Some (Some r)
                 ∧ (r = Flatpak.Rule_check_portal →
                    is_Some (Flatpak.portal_device h))) as Hslot.
  { intros rules Hrules.
    destruct (assign_all fst (λ hr : nat * Flatpak.access_rule_t, Some hr.2)
                (replicate PA_ACCESS_HOOK_MAX (Some Flatpak.Rule_block)) rules !! h)
      as [slot|] eqn:Hl.
    2: { apply lookup_ge_None in Hl.
         rewrite assign_all_length, length_replicate in Hl. lia. }
    apply assign_all_lookup_inv in Hl as [Hl|(hr & Hin & <- & <-)].
    - apply lookup_replicate in Hl as [-> _]. eexists. split; [done|]. discriminate.
    - eexists. split; [done|]. by apply Hrules. }
  destruct Hp as [->| ->].
  - rewrite Hd0, Hap0. destruct (Hslot _ Hdev0) as (r & Hr & Hportal).
    by eexists _, r.
  - rewrite Hp1, Hap1. destruct (Hslot _ Hdev1) as (r & Hr & Hportal).
    by eexists _, r.
Qed.

Lemma only_pending_changed_ok d u u' :
  only_pending_changed d u u' → flatpak_state_ok u → flatpak_state_ok u'.
Proof.
  intros Hch [Hpol Hcl]. split.
  - destruct Hch as (-> & _). done.
  - intros k cd' Hcd'. pose proof (only_pending_changed_lookup d u u' k Hch) as Hl.
    rewrite Hcd' in Hl. destruct (Flatpak.clients u !! k) as [cd|] eqn:Hcd; [|done].
    destruct Hl as (_ & -> & ->). by eapply Hcl.
Qed.

Lemma rule_check_portal_returns env c d u cd :
  Flatpak.clients u !! client_index d = Some cd →
  hook d < length (Flatpak.cd_cached cd) →
  is_Some (Flatpak.portal_device (hook d)) →
  is_Some (Flatpak.rule_check_portal env c d u).
Proof.
  intros Hcd Hlt [device Hdev].
  unfold Flatpak.rule_check_portal, Flatpak.client_data_get. rewrite Hcd. simpl.
  destruct (Flatpak.cd_cached cd !! hook d) as [slot|] eqn:Hslot.
  2: { apply lookup_ge_None in Hslot. lia. }
  simpl. destruct (Flatpak.checked slot); [done|].
  destruct (env_new_method_call_ok env); [simpl|done]. rewrite Hdev. simpl.
  destruct (env_append_args_ok env); [simpl|done].
  destruct (env_reply env) as [reply|]; [|done].
  destruct (dbus_message_get_args_object_path reply); [|done].
  by destruct (env_add_match_error env).
Qed.

Lemma flatpak_check_access_returns env c d u :
  flatpak_state_ok u → hook d < PA_ACCESS_HOOK_MAX →
  ∃ r u', Flatpak.check_access env c d u = Some (r, u') ∧ flatpak_state_ok u'.
Proof.
  intros Hu Hlt.
  assert (is_Some (Flatpak.check_access env c d u)) as [[r u'] Hrun].
  { destruct Hu as [Hpol Hcl].
    unfold Flatpak.check_access, Flatpak.client_data_get, pa_idxset_get_by_index.
    destruct (Flatpak.clients u !! client_index d) as [cd|] eqn:Hcd; [|done].
    destruct (Hcl _ _ Hcd) as [Hbound Hlen].
    destruct (flatpak_policy_slot _ (hook d) Hbound Hlt) as (ap & rule & Hap & Hr & Hdev).
    rewrite Hpol, Hap. simpl. rewrite Hr. simpl.
    destruct rule; simpl; try done.
    apply (rule_check_portal_returns env c d u cd); [done|lia|by apply Hdev]. }
  exists r, u'. split; [done|].
  eapply only_pending_changed_ok; [|done]. by eapply flatpak_check_access_state.
Qed.

Lemma flatpak_store_events_ok u k cd l :
  flatpak_state_ok u → Flatpak.clients u !! k = Some cd →
  flatpak_state_ok (Flatpak.store_client u k (Flatpak.set_cd_events cd l)).
Proof.
  intros [Hpol Hcl] Hcd. split; [done|].
  intros k' cd' Hk. unfold Flatpak.store_client in Hk. simpl in Hk.
  destruct (decide (k' = k)) as [->|Hne].
  - rewrite lookup_insert_eq in Hk. injection Hk as <-. simpl. by eapply Hcl.
  - rewrite lookup_insert_ne in Hk by done. by eapply Hcl.
Qed.

Lemma flatpak_filter_event_returns env c d u :
  flatpak_state_ok u →
  ∃ r u', Flatpak.filter_event env c d u = Some (r, u') ∧ flatpak_state_ok u'.
Proof.
  intros Hu.
  assert (∃ r u', Flatpak.filter_event_new env c d u (event_facility d) = Some (r, u')
                  ∧ flatpak_state_ok u') as Hnew.
  { unfold Flatpak.filter_event_new.
    rewrite (event_hook_lookup Hok) by apply (event_facility_in_mask Hok).
    simpl. destruct (Nat.eqb_spec (facility_get_info_hook (event_facility d)) 0)
      as [Hz|Hz]; [by eexists _, _|].
    unfold Flatpak.pa_hook_fire.
    rewrite (proj2 (Nat.eqb_neq _ _) (get_info_hook_not_filter Hok _ Hz)).
    destruct (flatpak_check_access_returns env c
                (with_hook d (facility_get_info_hook (event_facility d))) u Hu)
      as (r & u1 & Hr & Hu1).
    { simpl. revert Hz. unfold facility_get_info_hook.
      repeat case_decide; intros Hz;
        try (apply (named_hook_below_max Hok); hook_named); done. }
    rewrite Hr. simpl. case_decide; [|by eexists _, _].
    unfold Flatpak.client_data_get.
    destruct (Flatpak.clients u1 !! client_index d) as [cd|] eqn:Hcd.
    - simpl. eexists _, _. split; [done|]. by apply flatpak_store_events_ok.
    - pose proof (only_pending_changed_lookup _ _ _ (client_index d)
                    (flatpak_check_access_state _ _ _ _ _ _ Hr)) as Hl.
      simpl in Hl. rewrite Hcd in Hl.
      destruct (Flatpak.clients u !! client_index d) eqn:Hcd0; [done|].
      unfold Flatpak.check_access, Flatpak.client_data_get in Hr. simpl in Hr.
      rewrite Hcd0 in Hr. congruence. }
  unfold Flatpak.filter_event, Flatpak.client_data_get.
  change (Z.land (event d) PA_SUBSCRIPTION_EVENT_FACILITY_MASK)
    with (event_facility d).
  destruct (Flatpak.clients u !! client_index d) as [cd|] eqn:Hcd;
    [|by eexists _, _].
  cbv zeta. destruct (_ =? PA_SUBSCRIPTION_EVENT_REMOVE)%Z.
  { destruct (remove_event _ _ _) as [[] events]; eexists _, _; split; try done.
    by apply flatpak_store_events_ok. }
  destruct (_ =? PA_SUBSCRIPTION_EVENT_CHANGE)%Z.
  { destruct (find_event _ _ _); [by eexists _, _|done]. }
  destruct (_ =? PA_SUBSCRIPTION_EVENT_NEW)%Z; [done|by eexists _, _].
Qed.


End FlatpakReturns.

(** ** The event filter: the claim *)

Section FilterRows.
Context `{K : pulse_abi} {U : Type}.
Context (filter engine : pa_access_data → U → option (pa_hook_result_t * U)).
Context (seen_of : U → Z → option (list event_item)).
Context (with_seen : U → Z → list event_item → U).
Hypothesis engine_keeps_seen :
  ∀ d u r u1, engine d u = Some (r, u1) → ∀ k, seen_of u1 k = seen_of u k.
Hypothesis seen_read_back :
  ∀ u k l0 l k',
    seen_of u k = Some l0 →
    seen_of (with_seen u k l) k' = if decide (k' = k) then Some l else seen_of u k'.

Lemma event_filter_table_rows :
  event_filter_table filter engine seen_of with_seen →
  event_filter_rows filter engine seen_of with_seen.
Proof.
  intros Htable d u l Hl k p leaves. subst leaves. cbv beta.
  pose proof (Htable d u l Hl) as Ht. cbv zeta in Ht. fold k p in Ht.
  destruct Ht as (Hrm & Hrm' & Hch & Hnew & Hother).
  assert (∀ u0 l', seen_of u0 k = Some l → (∀ k', seen_of u0 k' = seen_of u k') →
            with_seen u0 k l' = with_seen u0 k l'
            ∧ seen_of (with_seen u0 k l') k = Some l'
            ∧ ∀ k', k' ≠ k → seen_of (with_seen u0 k l') k' = seen_of u k')
    as Hleaves.
  { intros u0 l' Hl0 Hsame. split; [done|]. split.
    - rewrite (seen_read_back u0 k l l' k Hl0). by rewrite decide_True.
    - intros k' Hk'. rewrite (seen_read_back u0 k l l' k' Hl0).
      rewrite decide_False by done. apply Hsame. }
  split; [|split; [|split; [|split]]]; try done.
  - intros Hty Hin. destruct (Hrm Hty Hin) as (l1 & l2 & Heq & Hout & Hrun).
    exists (with_seen u k (l1 ++ l2)), l1, l2.
    split; [done|]. split; [done|]. split; [done|]. by apply Hleaves.
  - intros Hty. specialize (Hnew Hty). cbv zeta in Hnew |- *.
    case_decide as Hz; [done|].
    destruct (engine (with_hook d (facility_get_info_hook (event_facility d))) u)
      as [[r u1]|] eqn:Hengine; simpl in Hnew; [|done].
    case_decide as Hr; [|done].
    pose proof (engine_keeps_seen _ _ _ _ Hengine) as Hsame.
    assert (seen_of u1 k = Some l) as Hl1 by (by rewrite Hsame).
    rewrite Hl1 in Hnew. simpl in Hnew.
    eexists. split; [exact Hnew|]. by apply Hleaves.
Qed.
End FilterRows.

Section FilterClaims.
Context `{K : pulse_abi} (Hok : pulse_abi_ok K).

Lemma access_seen_read_back u k l0 l k' :
  access_seen_of u k = Some l0 →
  access_seen_of (access_with_seen u k l) k'
  = if decide (k' = k) then Some l else access_seen_of u k'.
Proof.
  unfold access_seen_of, access_with_seen. intros Hl0.
  destruct (Access.clients u !! k) as [cd|] eqn:Hcd; [|done].
  unfold Access.store_client. cbn [Access.clients Access.set_clients].
  case_decide as Hk.
  - subst k'. by rewrite lookup_insert_eq.
  - by rewrite lookup_insert_ne.
Qed.

Lemma flatpak_seen_read_back u k l0 l k' :
  flatpak_seen_of u k = Some l0 →
  flatpak_seen_of (flatpak_with_seen u k l) k'
  = if decide (k' = k) then Some l else flatpak_seen_of u k'.
Proof.
  unfold flatpak_seen_of, flatpak_with_seen. intros Hl0.
  destruct (Flatpak.clients u !! k) as [cd|] eqn:Hcd; [|done].
  unfold Flatpak.store_client. cbn [Flatpak.clients Flatpak.set_clients].
  case_decide as Hk.
  - subst k'. by rewrite lookup_insert_eq.
  - by rewrite lookup_insert_ne.
Qed.

Lemma flatpak_check_access_seen env c d u r u1 :
  Flatpak.check_access env c d u = Some (r, u1) →
  ∀ k, flatpak_seen_of u1 k = flatpak_seen_of u k.
Proof.
  intros Hrun k. unfold flatpak_seen_of.
  pose proof (only_pending_changed_lookup _ _ _ k
                (flatpak_check_access_state _ _ _ _ _ _ Hrun)) as Hl.
  destruct (Flatpak.clients u !! k), (Flatpak.clients u1 !! k); try done.
  simpl. by destruct Hl as (-> & _).
Qed.

(** C2, amended. For a known client the event filter of either module
    follows its table, the seen list read back after each row: a REMOVE
    for a pair on the list unlinks one item, the first for the pair, and
    answers OK (the pair is off the list afterwards when it was on it once,
    and still on it when it was there more often); a REMOVE for a pair not
    on the list answers STOP; a CHANGE for a pair on the list answers OK;
    a NEW, and a CHANGE for a pair not on the list, are checked through
    the decision engine on a copy of the request whose hook is the
    facility's get-info hook (STOP when that hook is nil): on OK the pair
    is prepended to the list, on it or not, and the answer is OK,
    otherwise STOP; any other event type answers STOP. Nothing but the
    list of that client is written, and with the policies of [pa__init]
    the filter always returns. *)
Theorem event_filter_follows_rows :
  (∀ c, event_filter_rows (Access.filter_event c) (Access.check_access c)
          access_seen_of access_with_seen)
  ∧ (∀ env c, event_filter_rows (Flatpak.filter_event env c)
                (Flatpak.check_access env c)
                flatpak_seen_of flatpak_with_seen)
  ∧ (∀ c d u, access_state_ok u → is_Some (Access.filter_event c d u))
  ∧ (∀ env c d u, flatpak_state_ok u → is_Some (Flatpak.filter_event env c d u)).
Proof.
  split; [|split; [|split]].
  - intros c. apply event_filter_table_rows.
    + intros d u r u1 Hrun k. by apply access_check_access_state in Hrun as ->.
    + apply access_seen_read_back.
    + by apply access_filter_event_table.
  - intros env c. apply event_filter_table_rows.
    + apply flatpak_check_access_seen.
    + apply flatpak_seen_read_back.
    + by apply flatpak_filter_event_table.
  - intros c d u Hu.
    by destruct (access_filter_event_returns Hok c d u Hu) as (r & u' & -> & _).
  - intros env c d u Hu.
    by destruct (flatpak_filter_event_returns Hok env c d u Hu) as (r & u' & -> & _).
Qed.
End FilterClaims.

Example twice_told_run :
  Flatpak.run_filter (K := abi0)
    [ (env_accept, host0, event_for_client5 0 1 2);
      (env_accept, host0, event_for_client5 0 1 2) ]
    default_client_state
  = Some ([PA_HOOK_OK; PA_HOOK_OK], twice_told_state).
Proof. vm_compute. reflexivity. Qed.

Example twice_told_remove :
  ∃ u', Flatpak.filter_event (K := abi0) env_accept host0 (event_for_client5 32 1 2)
          twice_told_state
        = Some (PA_HOOK_OK, u')
        ∧ Flatpak.seen u' (client_index (event_for_client5 32 1 2)) = [EventItem 1 2]
        ∧ flatpak_seen_of u' (client_index (event_for_client5 32 1 2))
          = Some [EventItem 1 2].
Proof. eexists. repeat split; vm_compute; reflexivity. Qed.

(** C2 fails on the code: client 5 connects and is sent NEW for source 2
    twice; both are let through and [add_event] prepends the pair each
    time. The REMOVE for source 2 that follows is answered OK and unlinks
    one item: the pair is still on the list. *)
Lemma remove_leaves_a_repeated_pair : ¬ remove_forgets_the_pair (K := abi0).
Proof.
  intros Hclaim. destruct twice_told_remove as (u' & Hrun & Hseen & _).
  assert (Flatpak.cd_events
            <$> Flatpak.clients twice_told_state
                  !! client_index (event_for_client5 32 1 2)
          = Some [EventItem 1 2; EventItem 1 2]) as Hl
    by (vm_compute; reflexivity).
  assert (pair_of (K := abi0) (event_for_client5 32 1 2) = EventItem 1 2) as Hp
    by (vm_compute; reflexivity).
  destruct (Hclaim env_accept host0 (event_for_client5 32 1 2) twice_told_state
              [EventItem 1 2; EventItem 1 2] PA_HOOK_OK u' Hl) as [_ Hout].
  - vm_compute. reflexivity.
  - rewrite Hp. apply elem_of_cons. by left.
  - exact Hrun.
  - apply Hout. rewrite Hseen, Hp. apply elem_of_cons. by left.
Qed.

(** The amended C2 at work on module-flatpak.c: on the list of client 5,
    which holds the pair of source 2 twice, a REMOVE for source 2 unlinks
    the first of the two items; a REMOVE for source 9, which the client
    never saw, is stopped. *)
Lemma event_filter_follows_rows_witness :
  (∃ u', Flatpak.filter_event (K := abi0) env_accept host0 (event_for_client5 32 1 2)
           twice_told_state
         = Some (PA_HOOK_OK, u')
         ∧ flatpak_seen_of u' (client_index (event_for_client5 32 1 2))
           = Some [EventItem 1 2])
  ∧ Flatpak.filter_event (K := abi0) env_accept host0 (event_for_client5 32 1 9)
      twice_told_state
    = Some (PA_HOOK_STOP, twice_told_state).
Proof.
  pose proof (proj1 (proj2 (event_filter_follows_rows (K := abi0) abi0_ok))
                env_accept host0) as Hrows.
  assert (pair_of (K := abi0) (event_for_client5 32 1 2) = EventItem 1 2) as Hp
    by (vm_compute; reflexivity).
  assert (pair_of (K := abi0) (event_for_client5 32 1 9) = EventItem 1 9) as Hp'
    by (vm_compute; reflexivity).
  split.
  - assert (flatpak_seen_of twice_told_state
              (client_index (event_for_client5 32 1 2))
            = Some [EventItem 1 2; EventItem 1 2]) as Hl
      by (vm_compute; reflexivity).
    destruct (Hrows (event_for_client5 32 1 2) twice_told_state _ Hl)
      as (Hremove & _).
    destruct Hremove as (u' & l1 & l2 & Hrun & Heq & Hout & _ & Hread & _).
    + vm_compute. reflexivity.
    + rewrite Hp. apply elem_of_cons. by left.
    + exists u'. split; [exact Hrun|]. rewrite Hread. f_equal.
      rewrite Hp in Heq, Hout. destruct l1 as [|x l1].
      * simpl in Heq. by injection Heq as <-.
      * exfalso. apply Hout. simpl in Heq. injection Heq as <- _.
        apply elem_of_cons. by left.
  - assert (flatpak_seen_of twice_told_state
              (client_index (event_for_client5 32 1 9))
            = Some [EventItem 1 2; EventItem 1 2]) as Hl
      by (vm_compute; reflexivity).
    destruct (Hrows (event_for_client5 32 1 9) twice_told_state _ Hl)
      as (_ & Hremove & _).
    apply Hremove; [vm_compute; reflexivity|].
    rewrite Hp'. rewrite !not_elem_of_cons. repeat split; try discriminate.
    apply not_elem_of_nil.
Defined.

(** ** The seen lists: the claim *)

Section SeenClaims.
Context `{K : pulse_abi}.

Lemma no_repeated_new_nil : no_repeated_new [].
Proof. intros pre d post Heq. by destruct pre. Qed.

Lemma no_repeated_new_snoc_intro tr d r :
  no_repeated_new tr →
  (r = PA_HOOK_OK → event_type d = PA_SUBSCRIPTION_EVENT_NEW →
   ¬ told tr (client_index d) (pair_of d)) →
  no_repeated_new (tr ++ [(d, r)]).
Proof.
  intros Hfresh Hlast pre d0 post Heq Hty.
  assert (post = [] ∨ ∃ post' e, post = post' ++ [e]) as [->|(post' & e & ->)].
  { destruct post as [|e post' _] using rev_ind; [by left|right; eauto]. }
  - apply app_inj_tail in Heq as [-> Hinj]. injection Hinj as -> ->.
    by apply Hlast.
  - rewrite app_comm_cons, app_assoc in Heq.
    apply app_inj_tail in Heq as [-> _]. by eapply Hfresh.
Qed.

End SeenClaims.





(** ** The portal cache over later requests *)

Section CacheKept.
Context `{K : pulse_abi}.

Lemma same_caches_refl u : same_caches u u.
Proof. done. Qed.






End CacheKept.


(** ** What module-flatpak.c reaches *)

Section NeverUsed.
Context `{K : pulse_abi}.

Lemma flatpak_default_rules_no_portal :
  Forall (λ hr : nat * Flatpak.access_rule_t, hr.2 ≠ Flatpak.Rule_check_portal)
         Flatpak.default_policy_rules.
Proof.
  unfold Flatpak.default_policy_rules, Flatpak.allow_rules, Flatpak.owner_rules.
  cbn [app]. repeat (apply Forall_cons_2 || apply Forall_nil_2); done.
Qed.

Lemma flatpak_init_clients : Flatpak.clients Flatpak.pa__init = ∅.
Proof.
  rewrite flatpak_init_unfold. cbv zeta. unfold Flatpak.set_portal_policy.
  cbn [Flatpak.clients].
  match goal with
  | |- context [foldl (Flatpak.set_rule ?ap) ?u ?rules] =>
      destruct (flatpak_foldl_set_rule ap u rules) as (_ & _ & H3 & _)
  end.
  etrans; [exact H3|]. cbn [Flatpak.clients Flatpak.set_policies].
  unfold flatpak_init_first, Flatpak.set_default_policy. cbn [Flatpak.clients].
  match goal with
  | |- context [foldl (Flatpak.set_rule ?ap) ?u ?rules] =>
      destruct (flatpak_foldl_set_rule ap u rules) as (_ & _ & H3' & _)
  end.
  exact H3'.
Qed.

Lemma flatpak_init_connection :
  Flatpak.connection Flatpak.pa__init = Connection [] [] [].
Proof.
  rewrite flatpak_init_unfold. cbv zeta. unfold Flatpak.set_portal_policy.
  cbn [Flatpak.connection].
  match goal with
  | |- context [foldl (Flatpak.set_rule ?ap) ?u ?rules] =>
      destruct (flatpak_foldl_set_rule ap u rules) as (_ & _ & _ & H4 & _)
  end.
  etrans; [exact H4|]. cbn [Flatpak.connection Flatpak.set_policies].
  unfold flatpak_init_first, Flatpak.set_default_policy. cbn [Flatpak.connection].
  match goal with
  | |- context [foldl (Flatpak.set_rule ?ap) ?u ?rules] =>
      destruct (flatpak_foldl_set_rule ap u rules) as (_ & _ & _ & H4' & _)
  end.
  exact H4'.
Qed.

(** On the first policy the decision engine leaves the state alone and
    does not defer. *)
Lemma portal_unused_check_access env c d u r u' :
  portal_unused u → Flatpak.check_access env c d u = Some (r, u') →
  u' = u ∧ r ≠ PA_HOOK_CANCEL.
Proof.
  intros (Hpol & _ & _ & _ & Hcl).
  destruct flatpak_init_policies as (Hd0 & _ & Hap & _).
  unfold Flatpak.check_access, Flatpak.client_data_get, pa_idxset_get_by_index.
  destruct (Flatpak.clients u !! client_index d) as [cd|] eqn:Hcd.
  2: { intros [= <- <-]. done. }
  destruct (Hcl _ _ Hcd) as (Hbound & _). rewrite Hbound, Hd0, Hpol, Hap.
  cbn [mbind option_bind Flatpak.ap_rule].
  destruct (assign_all _ _ _ _ !! hook d) as [slot|] eqn:Hslot;
    cbn [mbind option_bind]; [|done].
  destruct slot as [rule|]; [|by intros [= <- <-]].
  assert (rule ≠ Flatpak.Rule_check_portal) as Hrule.
  { apply assign_all_lookup_inv in Hslot as [Hl|(hr & Hin & _ & Hv)].
    - apply lookup_replicate in Hl as [[= ->] _]. done.
    - injection Hv as <-. pose proof flatpak_default_rules_no_portal as HF.
      rewrite Forall_forall in HF. by apply HF. }
  destruct rule; try done; unfold Flatpak.call_rule; intros [= <- <-];
    split; try done.
  unfold rule_check_owner. by destruct (_ =? _)%Z.
Qed.

Lemma portal_unused_store u k cd :
  portal_unused u →
  Flatpak.cd_policy cd = Flatpak.default_policy Flatpak.pa__init →
  Flatpak.cd_cached cd
  = replicate PA_ACCESS_HOOK_MAX (Flatpak.AsyncCache false false) →
  Flatpak.cd_access_data cd = None →
  portal_unused (Flatpak.store_client u k cd).
Proof.
  intros (Hpol & Hdef & Hpor & Hconn & Hcl) Hp Hc Ha.
  split; [done|]. split; [done|]. split; [done|]. split; [done|].
  intros k' cd'. unfold Flatpak.store_client.
  cbn [Flatpak.clients Flatpak.set_clients].
  destruct (decide (k' = k)) as [->|Hk].
  - rewrite lookup_insert_eq. by intros [= <-].
  - rewrite lookup_insert_ne by done. apply Hcl.
Qed.

Lemma portal_unused_store_events u k cd l :
  portal_unused u → Flatpak.clients u !! k = Some cd →
  portal_unused (Flatpak.store_client u k (Flatpak.set_cd_events cd l)).
Proof.
  intros Hu Hcd. pose proof Hu as (_ & _ & _ & _ & Hcl).
  destruct (Hcl _ _ Hcd) as (Hp & Hc & Ha). by apply portal_unused_store.
Qed.

(** Until the portal is used the event filter keeps it unused. *)
Lemma portal_unused_filter_event env c d u r u' :
  portal_unused u → Flatpak.filter_event env c d u = Some (r, u') →
  portal_unused u'.
Proof.
  intros Hu.
  assert (∀ r u',
            Flatpak.filter_event_new env c d u
              (Z.land (event d) PA_SUBSCRIPTION_EVENT_FACILITY_MASK) = Some (r, u') →
            portal_unused u') as Hnew.
  { intros r0 u0. unfold Flatpak.filter_event_new.
    destruct (event_hook !! _) as [h|]; [simpl|done].
    destruct (h =? 0); [by intros [= <- <-]|].
    unfold Flatpak.pa_hook_fire.
    destruct (h =? PA_ACCESS_HOOK_FILTER_SUBSCRIBE_EVENT); [done|].
    destruct (Flatpak.check_access env c (with_hook d h) u) as [[r1 u1]|] eqn:Hchk;
      [simpl|done].
    apply (portal_unused_check_access _ _ _ _ _ _ Hu) in Hchk as [-> _].
    case_decide.
    - unfold Flatpak.client_data_get.
      destruct (Flatpak.clients u !! client_index d) as [cd|] eqn:Hcd; [simpl|done].
      intros [= <- <-]. by apply portal_unused_store_events.
    - by intros [= <- <-]. }
  unfold Flatpak.filter_event, Flatpak.client_data_get.
  destruct (Flatpak.clients u !! client_index d) as [cd|] eqn:Hcd;
    [|by intros [= <- <-]].
  cbv zeta.
  destruct (_ =? PA_SUBSCRIPTION_EVENT_REMOVE)%Z.
  { destruct (remove_event _ _ _) as [[] events]; intros [= <- <-]; [|done].
    by apply portal_unused_store_events. }
  destruct (_ =? PA_SUBSCRIPTION_EVENT_CHANGE)%Z.
  { destruct (find_event _ _ _); [by intros [= <- <-]|apply Hnew]. }
  destruct (_ =? PA_SUBSCRIPTION_EVENT_NEW)%Z; [apply Hnew|by intros [= <- <-]].
Qed.

(** module-flatpak.c never uses the portal: [find_policy_for_client]
    binds every client to the first policy, which has no portal rule, so
    in every state the callbacks reach nothing was sent to the bus, no
    response filter is registered, no decision is cached and no request is
    pending. *)
Lemma flatpak_reachable_unused u : flatpak_reachable u → portal_unused u.
Proof.
  induction 1 as [|cl u _ IH Hfresh|cl u _ IH|cl u _ IH|cl u _ IH
                  |i env c d u r u' _ IH Hrun|msg k u res u' fin _ IH Hk Hrun].
  - split; [done|]. split; [done|]. split; [done|].
    split; [apply flatpak_init_connection|].
    intros k cd Hk. by rewrite flatpak_init_clients, lookup_empty in Hk.
  - unfold Flatpak.client_put_cb, Flatpak.client_data_new.
    apply portal_unused_store; [done| |done|done].
    cbn [Flatpak.cd_policy]. unfold Flatpak.find_policy_for_client.
    by destruct IH as (_ & -> & _).
  - unfold Flatpak.client_auth_cb, Flatpak.client_data_get.
    destruct (Flatpak.clients u !! cl_index cl) as [cd0|] eqn:Hcd0; [|done].
    pose proof IH as (_ & Hdef & _ & _ & Hcl).
    destruct (Hcl _ _ Hcd0) as (Hp & Hc & Ha).
    by apply portal_unused_store;
      cbn [Flatpak.set_cd_policy_pid Flatpak.cd_policy Flatpak.cd_cached
           Flatpak.cd_access_data];
      unfold Flatpak.find_policy_for_client.
  - unfold Flatpak.client_proplist_changed_cb, Flatpak.client_data_get.
    destruct (Flatpak.clients u !! cl_index cl) as [cd0|] eqn:Hcd0; [|done].
    pose proof IH as (_ & Hdef & _ & _ & Hcl).
    destruct (Hcl _ _ Hcd0) as (Hp & Hc & Ha).
    by apply portal_unused_store;
      cbn [Flatpak.set_cd_policy_pid Flatpak.cd_policy Flatpak.cd_cached
           Flatpak.cd_access_data];
      unfold Flatpak.find_policy_for_client.
  - destruct IH as (Hpol & Hdef & Hpor & Hconn & Hcl).
    split; [done|]. split; [done|]. split; [done|]. split; [done|].
    intros k cd. unfold Flatpak.client_unlink_cb, Flatpak.client_data_remove.
    cbn [Flatpak.clients Flatpak.set_clients].
    intros Hk. apply lookup_delete_Some in Hk as [_ Hk]. by eapply Hcl.
  - unfold Flatpak.access_hook_cb in Hrun.
    destruct (i =? PA_ACCESS_HOOK_FILTER_SUBSCRIBE_EVENT).
    + by eapply portal_unused_filter_event.
    + by apply (portal_unused_check_access _ _ _ _ _ _ IH) in Hrun as [-> _].
  - destruct IH as (_ & _ & _ & Hconn & _). rewrite Hconn in Hk.
    by apply elem_of_nil in Hk.
Qed.
End NeverUsed.

(** The state of the scenario with the repeated NEW is one the module
    reaches: client 5 is put, then the event filter runs twice. *)
Example twice_told_reachable : flatpak_reachable (K := abi0) twice_told_state.
Proof.
  pose (u1 := match Flatpak.filter_event (K := abi0) env_accept host0
                      (event_for_client5 0 1 2) default_client_state with
              | Some (_, u) => u
              | None => default_client_state
              end).
  apply (flatpak_reach_hook 23 env_accept host0 (event_for_client5 0 1 2) u1
           PA_HOOK_OK).
  - apply (flatpak_reach_hook 23 env_accept host0 (event_for_client5 0 1 2)
             default_client_state PA_HOOK_OK).
    + unfold default_client_state.
      apply flatpak_reach_put; [apply flatpak_reach_init|].
      vm_compute. reflexivity.
    + vm_compute. reflexivity.
  - vm_compute. reflexivity.
Qed.
